(** * COVID-19 daily-report import: a shallow embedding of
      [scripts/importLocalData.ts] and the properties of its pipeline.

    Modelling conventions.
    - JavaScript strings are [string]s (sequences of 8-bit code units; the
      file names and numerals of the data set are ASCII).  [undefined] is
      [None].
    - The integer-valued numbers produced by [parseInt] and their sums are
      [Z]: IEEE doubles are exact on integers below 2^53, and the columns
      they are stored in are 32-bit and 64-bit integers.
    - The numbers produced by [parseFloat] are IEEE 754 binary64 values,
      [spec_float] at precision 53 and maximal exponent 1024, with the
      library's addition, division and comparison.
    - A [Date] built from [YYYY-MM-DD] is a UTC calendar day or the invalid
      date.
    - A JavaScript [Map] is an association list in insertion order.
    - The directory is its list of entries and, for each entry, the records
      the CSV parser yields for it.
    - The database is a record of three tables, each a list of rows in
      insertion order, with the columns the script supplies (the columns the
      database fills in by itself, the serial id and the two timestamps, are
      left out).  A statement fails only by violating a unique index of the
      migration. *)

From Stdlib Require Import List String Ascii ZArith Lia Bool Arith PeanoNat.
From Stdlib Require Import Permutation Sorted SpecFloat.
Import ListNotations.

Local Open Scope string_scope.
Local Open Scope list_scope.

(** ** Strings *)

Module Str.

(** [\d] of a regular expression without the unicode flag: [0-9]. *)
Definition isDigit (c : ascii) : bool :=
  let n := nat_of_ascii c in (48 <=? n)%nat && (n <=? 57)%nat.

Definition digitValue (c : ascii) : nat := nat_of_ascii c - 48.

Definition digitChar (n : nat) : ascii := ascii_of_nat (48 + n).

(** [s.endsWith(suffix)] *)
Fixpoint endsWith (s suffix : string) : bool :=
  String.eqb s suffix ||
  match s with
  | EmptyString => false
  | String _ t => endsWith t suffix
  end.

(** Value of a string of decimal digits, most significant first. *)
Fixpoint decimalFrom (acc : nat) (s : string) : nat :=
  match s with
  | EmptyString => acc
  | String c t => decimalFrom (10 * acc + digitValue c) t
  end.

Definition decimal (s : string) : nat := decimalFrom 0 s.

Definition pad2 (n : nat) : string :=
  String (digitChar (n / 10 mod 10)) (String (digitChar (n mod 10)) EmptyString).

Definition pad4 (n : nat) : string :=
  String (digitChar (n / 1000 mod 10))
    (String (digitChar (n / 100 mod 10)) (pad2 n)).

(** JavaScript's [a || b] on possibly-undefined strings: the empty string
    and [undefined] are falsy. *)
Definition or (a b : option string) : option string :=
  match a with
  | Some EmptyString | None => b
  | Some _ => a
  end.

Definition truthy (a : option string) : bool :=
  match a with
  | Some EmptyString | None => false
  | Some _ => true
  end.

End Str.

(** ** Dates *)

(** The time value of a [Date] built from a date-only ISO string is UTC
    midnight of a calendar day; [InvalidDate] is the NaN time value. *)
Inductive Date : Type :=
| InvalidDate
| UTCDate (year month day : nat).

Module JsDate.

Definition isLeap (y : nat) : bool :=
  ((y mod 4 =? 0) && negb (y mod 100 =? 0) || (y mod 400 =? 0))%nat.

Definition daysInMonth (y m : nat) : nat :=
  match m with
  | 2 => if isLeap y then 29 else 28
  | 4 | 6 | 9 | 11 => 30
  | _ => 31
  end.

(** The date of the ISO string [y-m-d].  With a month in 1..12 and a day
    in 1..31 it is that day of the month, or, for a day past the end of the
    month, the day it rolls over to in the next month (Node's engine takes
    any day up to 31 and normalises through [MakeDay]); any other month or
    day gives the invalid date. *)
Definition make (y m d : nat) : Date :=
  if ((1 <=? m) && (m <=? 12) && (1 <=? d) && (d <=? 31))%nat then
    if (d <=? daysInMonth y m)%nat then UTCDate y m d
    else UTCDate y (m + 1) (d - daysInMonth y m)
  else InvalidDate.

(** [new Date(s)] for [s] of the shape [YYYY-MM-DD]; other shapes are not
    modelled and give the invalid date. *)
Definition parse (s : string) : Date :=
  match s with
  | String y1 (String y2 (String y3 (String y4 (String s1
      (String m1 (String m2 (String s2 (String d1 (String d2 EmptyString))))))))) =>
      if Ascii.eqb s1 "-" && Ascii.eqb s2 "-"
         && forallb Str.isDigit [y1; y2; y3; y4; m1; m2; d1; d2]
      then
        make (Str.decimal (String y1 (String y2 (String y3 (String y4 EmptyString)))))
             (Str.decimal (String m1 (String m2 EmptyString)))
             (Str.decimal (String d1 (String d2 EmptyString)))
      else InvalidDate
  | _ => InvalidDate
  end.

(** [d.toISOString().split('T')[0]]; [toISOString] throws a [RangeError]
    on the invalid date. *)
Definition isoDay (d : Date) : option string :=
  match d with
  | InvalidDate => None
  | UTCDate y m d => Some (Str.pad4 y ++ "-" ++ Str.pad2 m ++ "-" ++ Str.pad2 d)%string
  end.

Definition eqb (a b : Date) : bool :=
  match a, b with
  | InvalidDate, InvalidDate => true
  | UTCDate y m d, UTCDate y' m' d' => ((y =? y') && (m =? m') && (d =? d'))%nat
  | _, _ => false
  end.

(** A calendar day as [make] yields it: a four-digit year, a month of
    the year and a day of that month. *)
Definition wellFormed (d : Date) : Prop :=
  match d with
  | InvalidDate => False
  | UTCDate y m d => y < 100 * 100 /\ 1 <= m <= 12 /\ 1 <= d <= daysInMonth y m
  end.

(** Chronological order of two valid dates. *)
Definition leb (a b : Date) : bool :=
  match a, b with
  | UTCDate y m d, UTCDate y' m' d' =>
      ((y <? y') || ((y =? y') && ((m <? m') || ((m =? m') && (d <=? d')))))%nat
  | _, _ => false
  end.

End JsDate.

(** ** [parseDate]: the report date of a file name *)

(** One attempt of [/(\d{2})-(\d{2})-(\d{4})\.csv/] at the start of [s]:
    the captured month, day and year. *)
Definition matchDateHere (s : string) : option (string * string * string) :=
  match s with
  | String m1 (String m2 (String s1 (String d1 (String d2 (String s2
      (String y1 (String y2 (String y3 (String y4 rest))))))))) =>
      if Ascii.eqb s1 "-" && Ascii.eqb s2 "-"
         && forallb Str.isDigit [m1; m2; d1; d2; y1; y2; y3; y4]
         && String.prefix ".csv" rest
      then
        Some (String m1 (String m2 EmptyString),
              String d1 (String d2 EmptyString),
              String y1 (String y2 (String y3 (String y4 EmptyString))))
      else None
  | _ => None
  end.

(** [filename.match(...)]: the pattern is not anchored, so the leftmost
    position where it matches is taken. *)
Fixpoint matchDate (filename : string) : option (string * string * string) :=
  match matchDateHere filename with
  | Some r => Some r
  | None =>
      match filename with
      | EmptyString => None
      | String _ t => matchDate t
      end
  end.

(** [parseDate]: [None] is the thrown [Error("Format de fichier invalide")]. *)
Definition parseDate (filename : string) : option Date :=
  match matchDate filename with
  | Some (month, day, year) => Some (JsDate.parse (year ++ "-" ++ month ++ "-" ++ day)%string)
  | None => None
  end.

(** ** The file enumerator: [readdirSync(...).filter(endsWith '.csv').sort()] *)

(** [Array.prototype.sort] without a comparator orders strings by code
    units; the order is total, so the result is the one sorted arrangement
    of the input whatever algorithm the engine runs. *)
Fixpoint insertSorted (x : string) (l : list string) : list string :=
  match l with
  | [] => [x]
  | y :: t => if String.leb x y then x :: l else y :: insertSorted x t
  end.

Fixpoint sort (l : list string) : list string :=
  match l with
  | [] => []
  | x :: t => insertSorted x (sort t)
  end.

Definition listCsvFiles (entries : list string) : list string :=
  sort (filter (fun file => Str.endsWith file ".csv") entries).

(** The dates of a list of files are in ascending chronological order. *)
Fixpoint chronological (dates : list Date) : bool :=
  match dates with
  | a :: ((b :: _) as t) => JsDate.leb a b && chronological t
  | _ => true
  end.

Definition reportDates (files : list string) : list Date :=
  flat_map (fun f => match parseDate f with Some d => [d] | None => [] end) files.

(** ** Numbers: [parseInt] and [parseFloat] *)

Module Num.

(** IEEE 754 binary64. *)
Definition float : Type := spec_float.
Definition prec : Z := 53.
Definition emax : Z := 1024.

Definition zero : float := S754_zero false.
Definition add : float -> float -> float := SFadd prec emax.
Definition div : float -> float -> float := SFdiv prec emax.
Definition ofNat (n : nat) : float := binary_normalize prec emax (Z.of_nat n) 0 false.
(** [x > 0] *)
Definition gt0 (x : float) : bool := SFltb zero x.
(** [x === 0] (both signed zeros) *)
Definition isZero (x : float) : bool := SFeqb x zero.
Definition isNaN (x : float) : bool :=
  match x with S754_nan => true | _ => false end.

(** Leading white space skipped by [parseInt] and [parseFloat]. *)
Definition isSpace (c : ascii) : bool :=
  let n := nat_of_ascii c in
  ((n =? 9) || (n =? 10) || (n =? 11) || (n =? 12) || (n =? 13) || (n =? 32))%nat.

Fixpoint skipSpaces (s : string) : string :=
  match s with
  | String c t => if isSpace c then skipSpaces t else s
  | EmptyString => s
  end.

(** An optional sign: [true] for [-]. *)
Definition takeSign (s : string) : bool * string :=
  match s with
  | String "-" t => (true, t)
  | String "+" t => (false, t)
  | _ => (false, s)
  end.

Definition hexValue (c : ascii) : option Z :=
  let n := nat_of_ascii c in
  if ((48 <=? n) && (n <=? 57))%nat then Some (Z.of_nat (n - 48))
  else if ((97 <=? n) && (n <=? 102))%nat then Some (Z.of_nat (n - 87))
  else if ((65 <=? n) && (n <=? 70))%nat then Some (Z.of_nat (n - 55))
  else None.

Definition digitOf (radix : Z) (c : ascii) : option Z :=
  match hexValue c with
  | Some v => if (v <? radix)%Z then Some v else None
  | None => None
  end.

(** The longest prefix of digits in the radix: its value, and whether it
    is non-empty. *)
Fixpoint readDigits (radix : Z) (acc : Z) (seen : bool) (s : string) : Z * bool :=
  match s with
  | String c t =>
      match digitOf radix c with
      | Some v => readDigits radix (radix * acc + v) true t
      | None => (acc, seen)
      end
  | EmptyString => (acc, seen)
  end.

(** [parseInt(s)] with no radix argument; [None] is [NaN]. *)
Definition parseInt (s : string) : option Z :=
  let '(neg, s1) := takeSign (skipSpaces s) in
  let '(radix, s2) :=
    match s1 with
    | String "0" (String "x" t) | String "0" (String "X" t) => (16%Z, t)
    | _ => (10%Z, s1)
    end in
  let '(v, seen) := readDigits radix 0 false s2 in
  if seen then Some (if neg then (- v)%Z else v) else None.

(** Decimal digits of a literal: the digits read so far as a number, how
    many were read, and the rest of the string. *)
Fixpoint takeDigits (acc : Z) (count : nat) (s : string) : Z * nat * string :=
  match s with
  | String c t =>
      if Str.isDigit c
      then takeDigits (10 * acc + Z.of_nat (Str.digitValue c)) (S count) t
      else (acc, count, s)
  | EmptyString => (acc, count, s)
  end.

Definition withSign (neg : bool) (x : float) : float :=
  if neg then SFopp x else x.

(** The binary64 value nearest to [m * 10^e] (ties to even), for [m > 0].
    A negative exponent is a division: the quotient is taken with more
    than 55 bits and a sticky bit for the remainder, then rounded once. *)
Definition roundDecimal (m : Z) (e : Z) : float :=
  if (0 <=? e)%Z then
    binary_normalize prec emax (m * 10 ^ e) 0 false
  else
    let d := (10 ^ (- e))%Z in
    let s := (Z.log2 d + 60)%Z in
    let q := (m * 2 ^ s / d)%Z in
    let sticky := if (m * 2 ^ s mod d =? 0)%Z then 0%Z else 1%Z in
    binary_normalize prec emax (2 * q + sticky) (- s - 1) false.

(** The exponent part of a decimal literal, [0] when there is none (an
    [e] not followed by digits is not part of the literal). *)
Definition takeExponent (s : string) : Z :=
  match s with
  | String "e" t | String "E" t =>
      let '(neg, t1) := takeSign t in
      let '(v, count, _) := takeDigits 0 0 t1 in
      match count with
      | O => 0%Z
      | _ => if neg then (- v)%Z else v
      end
  | _ => 0%Z
  end.

Definition startsWithInfinity (s : string) : bool :=
  String.prefix "Infinity" s.

(** [parseFloat(s)]: the longest prefix of [s], after leading white
    space, that is a decimal literal. *)
Definition parseFloat (s : string) : float :=
  let '(neg, s1) := takeSign (skipSpaces s) in
  if startsWithInfinity s1 then S754_infinity neg
  else
    let '(ip, ni, s2) := takeDigits 0 0 s1 in
    let '(m, nf, s3) :=
      match s2 with
      | String "." t =>
          let '(m, nf, r) := takeDigits ip 0 t in
          match ni, nf with
          | O, O => (ip, O, s2)
          | _, _ => (m, nf, r)
          end
      | _ => (ip, O, s2)
      end in
    match ni, nf with
    | O, O => S754_nan
    | _, _ =>
        if (m =? 0)%Z then S754_zero neg
        else withSign neg (roundDecimal m (takeExponent s3 - Z.of_nat nf))
    end.

End Num.

(** ** The data model *)

(** One record of a parsed CSV file ([interface DailyReportRow]); every
    column is a string or [undefined].  A quote stands for the character of
    a header that an identifier cannot carry ([Province/State],
    [Last Update], [Case-Fatality_Ratio]). *)
Record DailyReportRow : Type := {
  FIPS : option string;
  Admin2 : option string;
  Province_State : option string;
  Province'State : option string;
  Country_Region : option string;
  Country'Region : option string;
  Last_Update : option string;
  Last'Update : option string;
  Lat : option string;
  Latitude : option string;
  Long_ : option string;
  Longitude : option string;
  Confirmed : option string;
  Deaths : option string;
  Recovered : option string;
  Active : option string;
  Combined_Key : option string;
  Incident_Rate : option string;
  Incidence_Rate : option string;
  Case'Fatality_Ratio : option string;
  Case_Fatality_Ratio : option string
}.

(** The argument of [new Date(...)] for [lastUpdate]: the text of the
    record, or the ISO string of the report date. *)
Inductive Timestamp : Type :=
| TimeOfText (s : string)
| TimeOfDay (d : Date).

(** A detail row as handed to [prisma.dailyReport.createMany]. *)
Module DailyReport.
Record t : Type := {
  fips : option string;
  admin2 : option string;
  provinceState : option string;
  countryRegion : string;
  lastUpdate : Timestamp;
  latitude : Num.float;
  longitude : Num.float;
  confirmed : Z;
  deaths : Z;
  recovered : Z;
  active : Z;
  combinedKey : option string;
  incidentRate : option Num.float;
  caseFatalityRatio : option Num.float;
  reportDate : Date
}.
End DailyReport.

(** A value of [globalStatsByDate], and a row of [DailyGlobalStats]. *)
Module GlobalStats.
Record t : Type := {
  date : Date;
  totalConfirmed : Z;
  totalDeaths : Z;
  totalRecovered : Z;
  totalActive : Z
}.
End GlobalStats.

(** A value of the per-country map of one date. *)
Module CountryAcc.
Record t : Type := {
  confirmed : Z;
  deaths : Z;
  recovered : Z;
  active : Z;
  incidentRates : list Num.float;
  fatalityRatios : list Num.float
}.

Definition empty : t :=
  {| confirmed := 0; deaths := 0; recovered := 0; active := 0;
     incidentRates := []; fatalityRatios := [] |}.
End CountryAcc.

(** A row of [CountryStats]. *)
Module CountryStats.
Record t : Type := {
  countryRegion : string;
  date : Date;
  totalConfirmed : Z;
  totalDeaths : Z;
  totalRecovered : Z;
  totalActive : Z;
  incidentRate : option Num.float;
  caseFatalityRatio : option Num.float
}.
End CountryStats.

(** ** JavaScript [Map] with string keys *)

Module JsMap.
Section Ops.
Context {V : Type}.

Definition t : Type := list (string * V).

Fixpoint get (k : string) (m : t) : option V :=
  match m with
  | [] => None
  | (k', v) :: rest => if String.eqb k k' then Some v else get k rest
  end.

Definition has (k : string) (m : t) : bool :=
  match get k m with Some _ => true | None => false end.

(** [m.set(k, v)]: a present key keeps its place, a new key goes last. *)
Fixpoint set (k : string) (v : V) (m : t) : t :=
  match m with
  | [] => [(k, v)]
  | (k', v') :: rest =>
      if String.eqb k k' then (k, v) :: rest else (k', v') :: set k v rest
  end.

Definition keys (m : t) : list string := map fst m.
Definition values (m : t) : list V := map snd m.
End Ops.
Arguments t : clear implicits.
End JsMap.

(** ** Coercions of the row parser *)

Definition parseValue (value : option string) (defaultValue : option string) : option string :=
  if Str.truthy value then value else defaultValue.

Definition parseNumber (value : option string) (defaultValue : Num.float) : Num.float :=
  match value with
  | Some (String _ _ as s) =>
      let parsed := Num.parseFloat s in
      if Num.isNaN parsed then defaultValue else parsed
  | _ => defaultValue
  end.

Definition parseInteger (value : option string) (defaultValue : Z) : Z :=
  match value with
  | Some (String _ _ as s) =>
      match Num.parseInt s with
      | Some parsed => parsed
      | None => defaultValue
      end
  | _ => defaultValue
  end.

(** ** The per-file aggregator *)

(** The running totals [dailyConfirmed], [dailyDeaths], [dailyRecovered],
    [dailyActive] of the file being processed. *)
Record Daily : Type := {
  dailyConfirmed : Z;
  dailyDeaths : Z;
  dailyRecovered : Z;
  dailyActive : Z
}.

Definition dailyZero : Daily :=
  {| dailyConfirmed := 0; dailyDeaths := 0; dailyRecovered := 0; dailyActive := 0 |}.

(** The state of the loop over the records of one file. *)
Record FileState : Type := {
  daily : Daily;
  countryStatsMap : JsMap.t CountryAcc.t;
  dataToInsert : list DailyReport.t
}.

(** [x > 0 ? x : null] *)
Definition positiveOrNull (x : Num.float) : option Num.float :=
  if Num.gt0 x then Some x else None.

(** [if (x > 0) list.push(x)] *)
Definition pushPositive (x : Num.float) (l : list Num.float) : list Num.float :=
  if Num.gt0 x then l ++ [x] else l.

(** The values the loop body reads off a record. *)
Definition countryOf (row : DailyReportRow) : option string :=
  parseValue (Str.or (Country_Region row) (Country'Region row)) None.

Definition confirmedOf (row : DailyReportRow) : Z := parseInteger (Confirmed row) 0.
Definition deathsOf (row : DailyReportRow) : Z := parseInteger (Deaths row) 0.
Definition recoveredOf (row : DailyReportRow) : Z := parseInteger (Recovered row) 0.
Definition activeOf (row : DailyReportRow) : Z :=
  parseInteger (Active row) (confirmedOf row - deathsOf row - recoveredOf row).

Definition incidentRateOf (row : DailyReportRow) : Num.float :=
  parseNumber (Str.or (Incident_Rate row) (Incidence_Rate row)) Num.zero.
Definition fatalityRatioOf (row : DailyReportRow) : Num.float :=
  parseNumber (Str.or (Case'Fatality_Ratio row) (Case_Fatality_Ratio row)) Num.zero.

(** [dailyConfirmed += confirmed] and the three statements after it. *)
Definition addToDaily (d : Daily) (row : DailyReportRow) : Daily :=
  {| dailyConfirmed := dailyConfirmed d + confirmedOf row;
     dailyDeaths := dailyDeaths d + deathsOf row;
     dailyRecovered := dailyRecovered d + recoveredOf row;
     dailyActive := dailyActive d + activeOf row |}.

(** [countryStats.confirmed += confirmed] and the statements after it, up
    to the two [push]es. *)
Definition addToCountry (countryStats : CountryAcc.t) (row : DailyReportRow) : CountryAcc.t :=
  {| CountryAcc.confirmed := CountryAcc.confirmed countryStats + confirmedOf row;
     CountryAcc.deaths := CountryAcc.deaths countryStats + deathsOf row;
     CountryAcc.recovered := CountryAcc.recovered countryStats + recoveredOf row;
     CountryAcc.active := CountryAcc.active countryStats + activeOf row;
     CountryAcc.incidentRates :=
       pushPositive (incidentRateOf row) (CountryAcc.incidentRates countryStats);
     CountryAcc.fatalityRatios :=
       pushPositive (fatalityRatioOf row) (CountryAcc.fatalityRatios countryStats) |}.

(** The object pushed onto [dataToInsert]. *)
Definition detailRow (reportDate : Date) (countryRegion : string) (row : DailyReportRow)
    : DailyReport.t :=
  {| DailyReport.fips := parseValue (FIPS row) None;
     DailyReport.admin2 := parseValue (Admin2 row) None;
     DailyReport.provinceState :=
       parseValue (Str.or (Province_State row) (Province'State row)) None;
     DailyReport.countryRegion := countryRegion;
     DailyReport.lastUpdate :=
       match parseValue (Str.or (Last_Update row) (Last'Update row)) None with
       | Some s => TimeOfText s
       | None => TimeOfDay reportDate
       end;
     DailyReport.latitude := parseNumber (Str.or (Lat row) (Latitude row)) Num.zero;
     DailyReport.longitude := parseNumber (Str.or (Long_ row) (Longitude row)) Num.zero;
     DailyReport.confirmed := confirmedOf row;
     DailyReport.deaths := deathsOf row;
     DailyReport.recovered := recoveredOf row;
     DailyReport.active := activeOf row;
     DailyReport.combinedKey := parseValue (Combined_Key row) None;
     DailyReport.incidentRate := positiveOrNull (incidentRateOf row);
     DailyReport.caseFatalityRatio := positiveOrNull (fatalityRatioOf row);
     DailyReport.reportDate := reportDate |}.

(** [countryStatsMap.get(country)], after the entry was created if it was
    missing. *)
Definition countryEntry (country : string) (m : JsMap.t CountryAcc.t) : CountryAcc.t :=
  match JsMap.get country m with
  | Some acc => acc
  | None => CountryAcc.empty
  end.

(** The body of [for (const row of rows)]. *)
Definition processRow (reportDate : Date) (st : FileState) (row : DailyReportRow) : FileState :=
  match countryOf row with
  | None => st
  | Some countryRegion =>
      {| daily := addToDaily (daily st) row;
         countryStatsMap :=
           JsMap.set countryRegion
             (addToCountry (countryEntry countryRegion (countryStatsMap st)) row)
             (countryStatsMap st);
         dataToInsert := dataToInsert st ++ [detailRow reportDate countryRegion row] |}
  end.

Definition processRows (reportDate : Date) (countryStatsMap : JsMap.t CountryAcc.t)
    (rows : list DailyReportRow) : FileState :=
  fold_left (processRow reportDate)
    rows
    {| daily := dailyZero; countryStatsMap := countryStatsMap; dataToInsert := [] |}.

(** ** The database *)

Record Database : Type := {
  dailyReport : list DailyReport.t;
  dailyGlobalStats : list GlobalStats.t;
  countryStats : list CountryStats.t
}.

Inductive Table : Type := TDailyReport | TDailyGlobalStats | TCountryStats.

(** The statements sent to the database. *)
Inductive DbOp : Type :=
| DeleteMany (table : Table)
| CreateMany (batch : list DailyReport.t)
| CreateGlobal (row : GlobalStats.t)
| CreateCountry (row : CountryStats.t)
| Disconnect.

Definition isWrite (op : DbOp) : bool :=
  match op with Disconnect => false | _ => true end.

Module Db.

(** Two values of a nullable column are equal for a unique index only
    when both are present: the index of the migration is a plain
    [CREATE UNIQUE INDEX], under which nulls are distinct. *)
Definition sameNonNull (a b : option string) : bool :=
  match a, b with
  | Some x, Some y => String.eqb x y
  | _, _ => false
  end.

(** [DailyReport_countryRegion_provinceState_admin2_reportDate_key] *)
Definition conflicts (a b : DailyReport.t) : bool :=
  String.eqb (DailyReport.countryRegion a) (DailyReport.countryRegion b)
  && sameNonNull (DailyReport.provinceState a) (DailyReport.provinceState b)
  && sameNonNull (DailyReport.admin2 a) (DailyReport.admin2 b)
  && JsDate.eqb (DailyReport.reportDate a) (DailyReport.reportDate b).

(** One row of [createMany({ skipDuplicates: true })]: a row that would
    violate the unique index is left out. *)
Definition insertSkip (table : list DailyReport.t) (row : DailyReport.t) : list DailyReport.t :=
  if existsb (conflicts row) table then table else table ++ [row].

Definition createMany (batch : list DailyReport.t) (table : list DailyReport.t) : list DailyReport.t :=
  fold_left insertSkip batch table.

(** [DailyGlobalStats_date_key] *)
Definition globalConflicts (a b : GlobalStats.t) : bool :=
  JsDate.eqb (GlobalStats.date a) (GlobalStats.date b).

(** [CountryStats_countryRegion_date_key] *)
Definition countryConflicts (a b : CountryStats.t) : bool :=
  String.eqb (CountryStats.countryRegion a) (CountryStats.countryRegion b)
  && JsDate.eqb (CountryStats.date a) (CountryStats.date b).

(** [create]: [None] is the error of a violated unique index. *)
Definition createGlobal (row : GlobalStats.t) (table : list GlobalStats.t) : option (list GlobalStats.t) :=
  if existsb (globalConflicts row) table then None else Some (table ++ [row]).

Definition createCountry (row : CountryStats.t) (table : list CountryStats.t) : option (list CountryStats.t) :=
  if existsb (countryConflicts row) table then None else Some (table ++ [row]).

End Db.

(** ** The world the script runs in *)

(** The input directory: whether it exists, its entries, and for each
    entry the records [Papa.parse] yields ([None]: the file cannot be
    read). *)
Record FileSystem : Type := {
  dirExists : bool;
  readdir : list string;
  readCSVFile : string -> option (list DailyReportRow)
}.

(** The lines of the console that matter to the properties below. *)
Inductive Log : Type :=
| LogFilesFound (n : nat)
| LogProcessing (file : string)
| LogRecordsInserted (n : nat)
| LogErrorWithFile (file : string)
| LogSummary (totalRecords days countries : nat) (latestStats : option GlobalStats.t)
| LogErrorDuringImport
| LogScriptCompleted
| LogFatalError.

Record World : Type := {
  db : Database;
  ops : list DbOp;
  console : list Log
}.

Definition say (l : Log) (w : World) : World :=
  {| db := db w; ops := ops w; console := console w ++ [l] |}.

Definition issue (op : DbOp) (d : Database) (w : World) : World :=
  {| db := d; ops := ops w ++ [op]; console := console w |}.

Definition deleteMany (table : Table) (w : World) : World :=
  let d := db w in
  issue (DeleteMany table)
    match table with
    | TDailyReport =>
        {| dailyReport := []; dailyGlobalStats := dailyGlobalStats d; countryStats := countryStats d |}
    | TDailyGlobalStats =>
        {| dailyReport := dailyReport d; dailyGlobalStats := []; countryStats := countryStats d |}
    | TCountryStats =>
        {| dailyReport := dailyReport d; dailyGlobalStats := dailyGlobalStats d; countryStats := [] |}
    end
    w.

Definition createManyDailyReport (batch : list DailyReport.t) (w : World) : World :=
  let d := db w in
  issue (CreateMany batch)
    {| dailyReport := Db.createMany batch (dailyReport d);
       dailyGlobalStats := dailyGlobalStats d;
       countryStats := countryStats d |}
    w.

(** [dataToInsert.slice(j, j + batchSize)] for [j = 0, batchSize, ...]. *)
Fixpoint batchesFrom (fuel batchSize : nat) (data : list DailyReport.t) : list (list DailyReport.t) :=
  match fuel, data with
  | S fuel', _ :: _ => firstn batchSize data :: batchesFrom fuel' batchSize (skipn batchSize data)
  | _, _ => []
  end.

Definition batchSize : nat := 500.

Definition batches (data : list DailyReport.t) : list (list DailyReport.t) :=
  batchesFrom (List.length data) batchSize data.

Definition insertBatches (data : list DailyReport.t) (w : World) : World :=
  fold_left (fun w batch => createManyDailyReport batch w) (batches data) w.

(** ** The run *)

Record RunState : Type := {
  world : World;
  totalRecords : nat;
  globalStatsByDate : JsMap.t GlobalStats.t;
  countryStatsByDate : JsMap.t (JsMap.t CountryAcc.t)
}.

Definition withWorld (w : World) (st : RunState) : RunState :=
  {| world := w; totalRecords := totalRecords st;
     globalStatsByDate := globalStatsByDate st;
     countryStatsByDate := countryStatsByDate st |}.

(** The [catch] of the loop body: the error is printed and the loop goes
    on. *)
Definition fileFailed (file : string) (st : RunState) : RunState :=
  withWorld (say (LogErrorWithFile file) (world st)) st.

(** The body of the loop over the files, with its [try]/[catch]. *)
Definition processFile (fs : FileSystem) (st : RunState) (file : string) : RunState :=
  match parseDate file with
  | None => fileFailed file st
  | Some reportDate =>
      match JsDate.isoDay reportDate with
      | None => fileFailed file st
      | Some dateKey =>
          let st1 := withWorld (say (LogProcessing file) (world st)) st in
          match readCSVFile fs file with
          | None => fileFailed file st1
          | Some rows =>
              let byDate :=
                if JsMap.has dateKey (countryStatsByDate st1)
                then countryStatsByDate st1
                else JsMap.set dateKey [] (countryStatsByDate st1) in
              let mapOfDate :=
                match JsMap.get dateKey byDate with Some m => m | None => [] end in
              let result := processRows reportDate mapOfDate rows in
              let stats :=
                {| GlobalStats.date := reportDate;
                   GlobalStats.totalConfirmed := dailyConfirmed (daily result);
                   GlobalStats.totalDeaths := dailyDeaths (daily result);
                   GlobalStats.totalRecovered := dailyRecovered (daily result);
                   GlobalStats.totalActive := dailyActive (daily result) |} in
              let w := insertBatches (dataToInsert result) (world st1) in
              {| world := say (LogRecordsInserted (List.length (dataToInsert result))) w;
                 totalRecords := totalRecords st1 + List.length (dataToInsert result);
                 globalStatsByDate := JsMap.set dateKey stats (globalStatsByDate st1);
                 countryStatsByDate := JsMap.set dateKey (countryStatsMap result) byDate |}
          end
      end
  end.

(** [list.reduce((a, b) => a + b, 0) / list.length], or [null] for the
    empty list. *)
Definition mean (samples : list Num.float) : option Num.float :=
  match samples with
  | [] => None
  | _ => Some (Num.div (fold_left Num.add samples Num.zero) (Num.ofNat (List.length samples)))
  end.

Definition countryRow (reportDate : Date) (country : string) (stats : CountryAcc.t) : CountryStats.t :=
  {| CountryStats.countryRegion := country;
     CountryStats.date := reportDate;
     CountryStats.totalConfirmed := CountryAcc.confirmed stats;
     CountryStats.totalDeaths := CountryAcc.deaths stats;
     CountryStats.totalRecovered := CountryAcc.recovered stats;
     CountryStats.totalActive := CountryAcc.active stats;
     CountryStats.incidentRate := mean (CountryAcc.incidentRates stats);
     CountryStats.caseFatalityRatio := mean (CountryAcc.fatalityRatios stats) |}.

(** The rows of step 6, in the order of the two nested loops. *)
Definition countryRows (byDate : JsMap.t (JsMap.t CountryAcc.t)) : list CountryStats.t :=
  flat_map (fun '(dateKey, countryMap) =>
              map (fun '(country, stats) => countryRow (JsDate.parse dateKey) country stats)
                  countryMap)
           byDate.

(** A [create] per row; the first violated unique index stops the loop
    with the error ([inl]), the rows before it written. *)
Definition createGlobalStats (w : World) (row : GlobalStats.t) : World + World :=
  match Db.createGlobal row (dailyGlobalStats (db w)) with
  | Some table =>
      inr (issue (CreateGlobal row)
             {| dailyReport := dailyReport (db w);
                dailyGlobalStats := table;
                countryStats := countryStats (db w) |} w)
  | None => inl (issue (CreateGlobal row) (db w) w)
  end.

Definition createCountryStats (w : World) (row : CountryStats.t) : World + World :=
  match Db.createCountry row (countryStats (db w)) with
  | Some table =>
      inr (issue (CreateCountry row)
             {| dailyReport := dailyReport (db w);
                dailyGlobalStats := dailyGlobalStats (db w);
                countryStats := table |} w)
  | None => inl (issue (CreateCountry row) (db w) w)
  end.

Fixpoint forEach {A : Type} (body : World -> A -> World + World) (l : list A) (w : World) : World + World :=
  match l with
  | [] => inr w
  | x :: t =>
      match body w x with
      | inr w' => forEach body t w'
      | inl w' => inl w'
      end
  end.

Definition countCountries (byDate : JsMap.t (JsMap.t CountryAcc.t)) : nat :=
  List.length (nodup string_dec (flat_map (fun m => JsMap.keys m) (JsMap.values byDate))).

(** The outcome of the promise of [importDailyReports]. *)
Inductive Outcome : Type := Resolved | Rejected.

(** The outer [catch] (print and rethrow) and [finally] (disconnect). *)
Definition rejected (w : World) : Outcome * World :=
  (Rejected, issue Disconnect (db w) (say LogErrorDuringImport w)).

(** Step 3: the three tables are emptied. *)
Definition wipe (w : World) : World :=
  deleteMany TCountryStats (deleteMany TDailyGlobalStats (deleteMany TDailyReport w)).

(** Step 4: the loop over the files, from empty maps. *)
Definition processFiles (fs : FileSystem) (files : list string) (w : World) : RunState :=
  fold_left (processFile fs) files
    {| world := w; totalRecords := 0; globalStatsByDate := []; countryStatsByDate := [] |}.

(** Steps 5 and 6: the rows of the two statistics tables are created. *)
Definition insertStatistics (st : RunState) : World + World :=
  match forEach createGlobalStats (JsMap.values (globalStatsByDate st)) (world st) with
  | inl w => inl w
  | inr w => forEach createCountryStats (countryRows (countryStatsByDate st)) w
  end.

(** Step 7: the final summary. *)
Definition summary (st : RunState) : Log :=
  LogSummary (totalRecords st)
    (List.length (globalStatsByDate st))
    (countCountries (countryStatsByDate st))
    (last (map Some (JsMap.values (globalStatsByDate st))) None).

Definition importDailyReports (fs : FileSystem) (w : World) : Outcome * World :=
  if negb (dirExists fs) then rejected w
  else
    let files := listCsvFiles (readdir fs) in
    let st := processFiles fs files (wipe (say (LogFilesFound (List.length files)) w)) in
    match insertStatistics st with
    | inl w' => rejected w'
    | inr w' => (Resolved, issue Disconnect (db w') (say (summary st) w'))
    end.

(** The script: the exit status of the process. *)
Definition main (fs : FileSystem) (w : World) : nat * World :=
  match importDailyReports fs w with
  | (Resolved, w') => (0, say LogScriptCompleted w')
  | (Rejected, w') => (1, say LogFatalError w')
  end.

(** ** Sample inputs *)

Module Sample.

(** A record with every column missing. *)
Definition blank : DailyReportRow :=
  {| FIPS := None; Admin2 := None; Province_State := None; Province'State := None;
     Country_Region := None; Country'Region := None;
     Last_Update := None; Last'Update := None;
     Lat := None; Latitude := None; Long_ := None; Longitude := None;
     Confirmed := None; Deaths := None; Recovered := None; Active := None;
     Combined_Key := None; Incident_Rate := None; Incidence_Rate := None;
     Case'Fatality_Ratio := None; Case_Fatality_Ratio := None |}.

(** A line [,,,country,,,,confirmed,deaths,,,,rate,] of a report in the
    current column layout: the other columns are present and empty. *)
Definition line (country confirmed deaths rate : string) : DailyReportRow :=
  {| FIPS := Some ""; Admin2 := Some ""; Province_State := Some ""; Province'State := None;
     Country_Region := Some country; Country'Region := None;
     Last_Update := Some ""; Last'Update := None;
     Lat := Some ""; Latitude := None; Long_ := Some ""; Longitude := None;
     Confirmed := Some confirmed; Deaths := Some deaths;
     Recovered := Some ""; Active := Some "";
     Combined_Key := Some ""; Incident_Rate := Some rate; Incidence_Rate := None;
     Case'Fatality_Ratio := Some ""; Case_Fatality_Ratio := None |}.

(** A line of a county of a state. *)
Definition county (name state country confirmed : string) : DailyReportRow :=
  {| FIPS := Some ""; Admin2 := Some name; Province_State := Some state; Province'State := None;
     Country_Region := Some country; Country'Region := None;
     Last_Update := Some "2020-04-01 21:58:49"; Last'Update := None;
     Lat := Some "34.22"; Latitude := None; Long_ := Some "-82.46"; Longitude := None;
     Confirmed := Some confirmed; Deaths := Some "0";
     Recovered := Some "0"; Active := Some "x";
     Combined_Key := Some ""; Incident_Rate := Some "0.0"; Incidence_Rate := None;
     Case'Fatality_Ratio := Some "n/a"; Case_Fatality_Ratio := None |}.

Definition emptyDb : Database :=
  {| dailyReport := []; dailyGlobalStats := []; countryStats := [] |}.

Definition freshWorld : World := {| db := emptyDb; ops := []; console := [] |}.

Definition emptyFileState : FileState :=
  {| daily := dailyZero; countryStatsMap := []; dataToInsert := [] |}.

(** A directory of files with the given contents. *)
Fixpoint lookupFile (files : list (string * list DailyReportRow)) (name : string)
    : option (list DailyReportRow) :=
  match files with
  | [] => None
  | (n, rows) :: rest => if String.eqb name n then Some rows else lookupFile rest name
  end.

Definition directory (files : list (string * list DailyReportRow)) : FileSystem :=
  {| dirExists := true; readdir := map fst files; readCSVFile := lookupFile files |}.

Definition missingDirectory : FileSystem :=
  {| dirExists := false; readdir := []; readCSVFile := fun _ => None |}.

(** Two reports on either side of a new year. *)
Definition newYear : FileSystem :=
  directory [("12-31-2020.csv", [line "US" "20000" "300" "1.5"]);
             ("01-01-2021.csv", [line "US" "21000" "310" "2.5"])].

(** A report and a copy of it left in the directory. *)
Definition withCopy : FileSystem :=
  directory [("03-01-2020.csv", [line "US" "1000" "10" "1.5"]);
             ("copy-03-01-2020.csv", [line "US" "500" "5" "2.5"])].

(** The scenario of two records of one country in one file. *)
Definition twoRecords : FileSystem :=
  directory [("03-01-2020.csv", [line "US" "1000" "10" "1.5"; line "US" "500" "5" "2.5"])].


(** Two records of one country, without province or sub-region, in one
    file. *)
Definition franceTwice : FileSystem :=
directory [("03-01-2020.csv", [line "France" "100" "10" ""; line "France" "30" "3" ""])].

(** Two records of one county in one file. *)
Definition countyTwice : list DailyReportRow :=
[county "Abbeville" "South Carolina" "US" "4"; county "Abbeville" "South Carolina" "US" "6"].

(** The row of the country table that [twoRecords] gives. *)
Definition usRow : CountryStats.t :=
{| CountryStats.countryRegion := "US";
   CountryStats.date := UTCDate 2020 3 1;
   CountryStats.totalConfirmed := 1500;
   CountryStats.totalDeaths := 15;
   CountryStats.totalRecovered := 0;
   CountryStats.totalActive := 1485;
   CountryStats.incidentRate := Some (S754_finite false 4503599627370496 (-51));
   CountryStats.caseFatalityRatio := None |}.

End Sample.


(** ** Notions used by the properties *)

(** A column that yields no integer: missing, empty, or not a numeral. *)
Definition noInteger (value : option string) : bool :=
  match value with
  | Some (String _ _ as s) =>
      match Num.parseInt s with Some _ => false | None => true end
  | _ => true
  end.

(** A column that yields no number: missing, empty, or not a numeral. *)
Definition noNumber (value : option string) : bool :=
  match value with
  | Some (String _ _ as s) => Num.isNaN (Num.parseFloat s)
  | _ => true
  end.

(** The record [row], met in the loop state [st], is pushed onto
    [dataToInsert] as [detail]. *)
Definition emits (reportDate : Date) (st : FileState) (row : DailyReportRow)
    (detail : DailyReport.t) : Prop :=
  dataToInsert (processRow reportDate st row) = dataToInsert st ++ [detail].

(** The detail rows of the records of one file read on their own. *)
Definition detailsOf (reportDate : Date) (rows : list DailyReportRow) : list DailyReport.t :=
  dataToInsert (processRows reportDate [] rows).

(** Two states of the run that agree on everything but the console and the
    list of statements sent. *)
Definition sameData (st st' : RunState) : Prop :=
  db (world st) = db (world st')
  /\ totalRecords st = totalRecords st'
  /\ globalStatsByDate st = globalStatsByDate st'
  /\ countryStatsByDate st = countryStatsByDate st'.

(** The same for the outcome of a loop of [create]s. *)
Definition sameOutcome (r r' : World + World) : Prop :=
  match r, r' with
  | inl w, inl w' | inr w, inr w' => db w = db w'
  | _, _ => False
  end.

(** A well-kept map of the per-country maps: distinct day keys, each the
    ISO day of a well-formed date, over maps of distinct countries. *)
Record CountryMapsOk (byDate : JsMap.t (JsMap.t CountryAcc.t)) : Prop := {
  ok_keys : NoDup (JsMap.keys byDate);
  ok_date :
    forall k m, In (k, m) byDate ->
                exists d, JsDate.wellFormed d /\ JsDate.isoDay d = Some k;
  ok_inner : forall k m, In (k, m) byDate -> NoDup (JsMap.keys m)
}.

(** What holds of the state of the run throughout the loop over the files:
    the keys of the maps are distinct day keys, each global entry carries
    the date of its key, and the two statistics tables are still empty. *)
Record RunInvariant (st : RunState) : Prop := {
  inv_global_keys : NoDup (JsMap.keys (globalStatsByDate st));
  inv_global_date :
    forall k g, In (k, g) (globalStatsByDate st) ->
                JsDate.wellFormed (GlobalStats.date g)
                /\ JsDate.isoDay (GlobalStats.date g) = Some k;
  inv_country : CountryMapsOk (countryStatsByDate st);
  inv_global_table : dailyGlobalStats (db (world st)) = [];
  inv_country_table : countryStats (db (world st)) = []
}.

Definition countryKey (row : CountryStats.t) : string * Date :=
  (CountryStats.countryRegion row, CountryStats.date row).

(** The order of [sort]: code-unit order of strings. *)
Definition nameLe (a b : string) : Prop := String.leb a b = true.


(** The day key, the report date and the records of a file the loop
    processes; [None] for a file it skips with an error. *)
Definition fileRecords (fs : FileSystem) (file : string)
    : option (string * Date * list DailyReportRow) :=
  match parseDate file with
  | Some reportDate =>
      match JsDate.isoDay reportDate with
      | Some dateKey =>
          match readCSVFile fs file with
          | Some rows => Some (dateKey, reportDate, rows)
          | None => None
          end
      | None => None
      end
  | None => None
  end.

(** The record counts for the country. *)
Definition countryIs (country : string) (row : DailyReportRow) : bool :=
  match countryOf row with
  | Some c => String.eqb c country
  | None => false
  end.

(** The records of the files under a day key that count for a country, in
    the order of the files and of their records. *)
Definition recordsAt (fs : FileSystem) (files : list string) (dateKey country : string)
    : list DailyReportRow :=
  flat_map (fun file =>
              match fileRecords fs file with
              | Some (k, _, rows) =>
                  if String.eqb k dateKey then filter (countryIs country) rows else []
              | None => []
              end)
           files.

(** The records of a run that count for a country on a report date. *)
Definition recordsOf (fs : FileSystem) (country : string) (date : Date) : list DailyReportRow :=
  flat_map (fun file =>
              match fileRecords fs file with
              | Some (_, reportDate, rows) =>
                  if JsDate.eqb reportDate date then filter (countryIs country) rows else []
              | None => []
              end)
           (listCsvFiles (readdir fs)).

(** The strictly positive samples of a column over some records. *)
Definition positiveSamples (sample : DailyReportRow -> Num.float) (rows : list DailyReportRow)
    : list Num.float :=
  filter Num.gt0 (map sample rows).

(** The entry of a country under a day key, empty when there is none. *)
Definition entryAt (dateKey country : string) (byDate : JsMap.t (JsMap.t CountryAcc.t))
    : CountryAcc.t :=
  countryEntry country
    match JsMap.get dateKey byDate with
    | Some m => m
    | None => []
    end.

Definition sumOf (value : DailyReportRow -> Z) (rows : list DailyReportRow) : Z :=
  fold_right (fun row total => (value row + total)%Z) 0%Z rows.

(** The four counts of a record, of the running totals of a file and of
    the entry of a country, and their sum. *)
Definition Counts : Type := (Z * Z * Z * Z)%type.

Definition countsOf (row : DailyReportRow) : Counts :=
  (confirmedOf row, deathsOf row, recoveredOf row, activeOf row).

Definition dailyCounts (d : Daily) : Counts :=
  (dailyConfirmed d, dailyDeaths d, dailyRecovered d, dailyActive d).

Definition entryCounts (acc : CountryAcc.t) : Counts :=
  (CountryAcc.confirmed acc, CountryAcc.deaths acc, CountryAcc.recovered acc,
   CountryAcc.active acc).

Definition plus (a b : Counts) : Counts :=
  let '(c, d, r, x) := a in
  let '(c', d', r', x') := b in
  (c + c', d + d', r + r', x + x')%Z.

Definition totalOf (rows : list DailyReportRow) : Counts :=
  fold_right (fun row total => plus (countsOf row) total) (0, 0, 0, 0)%Z rows.

(** The loop body does not skip the record. *)
Definition counted (row : DailyReportRow) : bool :=
  match countryOf row with Some _ => true | None => false end.

(** Two detail rows carry the same country, province, sub-region and
    report date, an absent value being the same as an absent value. *)
Definition sameOptional (a b : option string) : bool :=
  match a, b with
  | Some x, Some y => String.eqb x y
  | None, None => true
  | _, _ => false
  end.

Definition sameKey (a b : DailyReport.t) : bool :=
  String.eqb (DailyReport.countryRegion a) (DailyReport.countryRegion b)
  && sameOptional (DailyReport.provinceState a) (DailyReport.provinceState b)
  && sameOptional (DailyReport.admin2 a) (DailyReport.admin2 b)
  && JsDate.eqb (DailyReport.reportDate a) (DailyReport.reportDate b).

(** The unique index holds of a table: no row conflicts with a later one. *)
Definition UniqueIndex (table : list DailyReport.t) : Prop :=
  ForallOrdPairs (fun a b => Db.conflicts a b = false) table.

(** How many rows of a table tally with a predicate. *)
Definition countRows (p : DailyReport.t -> bool) (table : list DailyReport.t) : nat :=
  List.length (filter p table).

(** The report date and records of the last of the files that comes under
    a day key. *)
Fixpoint lastFileAt (fs : FileSystem) (files : list string) (dateKey : string)
    : option (Date * list DailyReportRow) :=
  match files with
  | [] => None
  | file :: rest =>
      match lastFileAt fs rest dateKey with
      | Some found => Some found
      | None =>
          match fileRecords fs file with
          | Some (k, reportDate, rows) =>
              if String.eqb k dateKey then Some (reportDate, rows) else None
          | None => None
          end
      end
  end.

(** The global entry of a file: its date and the totals of its counted
    records. *)
Definition globalEntry (reportDate : Date) (rows : list DailyReportRow) : GlobalStats.t :=
  let '(c, d, r, x) := totalOf (filter counted rows) in
  {| GlobalStats.date := reportDate;
     GlobalStats.totalConfirmed := c;
     GlobalStats.totalDeaths := d;
     GlobalStats.totalRecovered := r;
     GlobalStats.totalActive := x |}.



(** ** Notions used by the further properties *)


(** The name of the report of a day: [MM-DD-YYYY.csv]. *)
Definition reportFileName (y m d : nat) : string :=
  (Str.pad2 m ++ "-" ++ Str.pad2 d ++ "-" ++ Str.pad4 y ++ ".csv")%string.



(** The directory of [Sample.twoRecords] listed with a stray entry first. *)
Definition relisted : FileSystem :=
  {| dirExists := true;
     readdir := ["03-02-2020.csv"; "notes.txt"; "03-01-2020.csv"];
     readCSVFile := fun file =>
       if String.eqb file "03-01-2020.csv" then Some [Sample.line "US" "1000" "10" "1.5"]
       else if String.eqb file "03-02-2020.csv" then Some [Sample.line "US" "1100" "12" "1.75"]
       else None |}.

Definition relistedAgain : FileSystem :=
  {| dirExists := true;
     readdir := ["03-01-2020.csv"; "03-02-2020.csv"; "notes.txt"];
     readCSVFile := readCSVFile relisted |}.

(** The global row that [Sample.withCopy] gives. *)
Definition copyGlobalRow : GlobalStats.t :=
  {| GlobalStats.date := UTCDate 2020 3 1;
     GlobalStats.totalConfirmed := 500;
     GlobalStats.totalDeaths := 5;
     GlobalStats.totalRecovered := 0;
     GlobalStats.totalActive := 495 |}.













(** * The routes that read the statistics *)

(** A row of [CountryStats] as [findMany] returns it.  The counts come
    from INTEGER columns: the difference of two of them is exact in
    JavaScript's numbers, so they are integers here. *)
Module Stat.
Record t : Type := {
  countryRegion : string;
  date : Date;
  totalConfirmed : Z;
  totalDeaths : Z;
  newDeaths : option Z;
  totalRecovered : Z;
  totalActive : Z;
  incidentRate : option Num.float;
  caseFatalityRatio : option Num.float
}.

(** The row read back for a row the import script created: the script
    supplies no [newDeaths], which stays NULL. *)
Definition imported (row : CountryStats.t) : t :=
  {| countryRegion := CountryStats.countryRegion row;
     date := CountryStats.date row;
     totalConfirmed := CountryStats.totalConfirmed row;
     totalDeaths := CountryStats.totalDeaths row;
     newDeaths := None;
     totalRecovered := CountryStats.totalRecovered row;
     totalActive := CountryStats.totalActive row;
     incidentRate := CountryStats.incidentRate row;
     caseFatalityRatio := CountryStats.caseFatalityRatio row |}.

Definition withRecovered (recovered : Z) (row : t) : t :=
  {| countryRegion := countryRegion row;
     date := date row;
     totalConfirmed := totalConfirmed row;
     totalDeaths := totalDeaths row;
     newDeaths := newDeaths row;
     totalRecovered := recovered;
     totalActive := totalActive row;
     incidentRate := incidentRate row;
     caseFatalityRatio := caseFatalityRatio row |}.
End Stat.

(** A row of [CountryPopulation] as selected by the timeline route. *)
Module Population.
Record t : Type := { year : Z; population : Z }.
End Population.

(** An element of the [timeline] array of the response. *)
Module Point.
Record t : Type := {
  date : Date;
  confirmed : Z;
  deaths : Z;
  newDeaths : Z;
  recovered : option Z;
  active : Z;
  incidentRate : option Num.float;
  caseFatalityRatio : option Num.float;
  population : option Num.float
}.
End Point.

(** JavaScript [Map] with number keys (here: years). *)
Module YearMap.
Section Ops.
Context {V : Type}.

Definition t : Type := list (Z * V).

Fixpoint get (k : Z) (m : t) : option V :=
  match m with
  | [] => None
  | (k', v) :: rest => if (k =? k')%Z then Some v else get k rest
  end.

Fixpoint set (k : Z) (v : V) (m : t) : t :=
  match m with
  | [] => [(k, v)]
  | (k', v') :: rest =>
      if (k =? k')%Z then (k, v) :: rest else (k', v') :: set k v rest
  end.
End Ops.
Arguments t : clear implicits.
End YearMap.

(** [Number(n)] of a BigInt: the nearest binary64 number. *)
Definition numberOfBigInt (n : Z) : Num.float :=
  binary_normalize Num.prec Num.emax n 0 false.

(** [date.getUTCFullYear()]; [None] is NaN. *)
Definition getUTCFullYear (date : Date) : option Z :=
  match date with
  | UTCDate year _ _ => Some (Z.of_nat year)
  | InvalidDate => None
  end.

(** ** [GET /api/covid/timeline] *)

Section DateRange.

(** [new Date(text).getTime()], [None] for NaN. *)
Variable timeOf : string -> option Z.

(** [startDate] and [endDate] before the swap: a missing, empty or
    unparseable parameter gives [null]. *)
Definition parseBound (param : option string) : option Z :=
  match param with
  | Some (String _ _ as text) => timeOf text
  | _ => None
  end.

(** [startDate] and [endDate] after the swap. *)
Definition dateRange (startDateParam endDateParam : option string) : option Z * option Z :=
  let startDate := parseBound startDateParam in
  let endDate := parseBound endDateParam in
  match startDate, endDate with
  | Some s, Some e => if (e <? s)%Z then (Some e, Some s) else (Some s, Some e)
  | _, _ => (startDate, endDate)
  end.

(** [dateFilter]: the bounds [gte] and [lte], or [null]. *)
Definition dateFilter (startDateParam endDateParam : option string)
    : option (option Z * option Z) :=
  match dateRange startDateParam endDateParam with
  | (None, None) => None
  | bounds => Some bounds
  end.

(** A time value passes the filter. *)
Definition passes (filter : option (option Z * option Z)) (time : Z) : bool :=
  match filter with
  | None => true
  | Some (gte, lte) =>
      match gte with Some g => (g <=? time)%Z | None => true end
      && match lte with Some l => (time <=? l)%Z | None => true end
  end.

End DateRange.

(** [searchParams.get('deathsMode') || 'cumulative'] *)
Definition deathsModeOf (param : option string) : string :=
  match param with
  | Some (String _ _ as mode) => mode
  | _ => "cumulative"
  end.

(** [populationByYear]: filled from the populations found, when the
    country timeline has a year at all. *)
Definition populationByYearOf (countryTimeline : list Stat.t) (populations : list Population.t)
    : YearMap.t Num.float :=
  match countryTimeline with
  | [] => []
  | _ :: _ =>
      fold_left (fun m entry =>
                   YearMap.set (Population.year entry)
                     (numberOfBigInt (Population.population entry)) m)
                populations []
  end.

(** [dailyDeaths] of the callback of [map]; [prev] is the total of the
    element before, [None] at index 0. *)
Definition dailyDeathsOf (prev : option Z) (stat : Stat.t) : Z :=
  match Stat.newDeaths stat with
  | Some stored => stored
  | None =>
      match prev with
      | Some before => Stat.totalDeaths stat - before
      | None => Stat.totalDeaths stat
      end
  end.

(** The callback of [countryTimeline.reverse().map(...)]. *)
Definition timelinePoint (deathsMode : string) (populationByYear : YearMap.t Num.float)
    (prev : option Z) (stat : Stat.t) : Point.t :=
  let dailyDeaths := dailyDeathsOf prev stat in
  {| Point.date := Stat.date stat;
     Point.confirmed := Stat.totalConfirmed stat;
     Point.deaths := if String.eqb deathsMode "daily" then dailyDeaths
                     else Stat.totalDeaths stat;
     Point.newDeaths := match Stat.newDeaths stat with
                        | Some stored => stored
                        | None => dailyDeaths
                        end;
     Point.recovered := if (0 <? Stat.totalRecovered stat)%Z
                        then Some (Stat.totalRecovered stat) else None;
     Point.active := Stat.totalActive stat;
     Point.incidentRate := Stat.incidentRate stat;
     Point.caseFatalityRatio := Stat.caseFatalityRatio stat;
     Point.population :=
       match getUTCFullYear (Stat.date stat) with
       | Some year => YearMap.get year populationByYear
       | None => None
       end |}.

(** [arr.map((stat, index, arr) => ...)], the element before at hand. *)
Fixpoint mapTimeline (deathsMode : string) (populationByYear : YearMap.t Num.float)
    (prev : option Z) (arr : list Stat.t) : list Point.t :=
  match arr with
  | [] => []
  | stat :: rest =>
      timelinePoint deathsMode populationByYear prev stat
      :: mapTimeline deathsMode populationByYear (Some (Stat.totalDeaths stat)) rest
  end.

(** The [timeline] of a country, from the rows and the populations the
    two queries return. *)
Definition countryTimelinePoints (deathsModeParam : option string)
    (countryTimeline : list Stat.t) (populations : list Population.t) : list Point.t :=
  mapTimeline (deathsModeOf deathsModeParam)
    (populationByYearOf countryTimeline populations)
    None
    (rev countryTimeline).

(** The sums of the prefixes of a list, starting from [total]. *)
Fixpoint runningSums (total : Z) (values : list Z) : list Z :=
  match values with
  | [] => []
  | value :: rest => (total + value)%Z :: runningSums (total + value)%Z rest
  end.

(** ** [GET /api/covid/stats] *)

(** An element of [recoveryCandidates]. *)
Module Candidate.
Record t : Type := { countryRegion : string; totalRecovered : Z }.
End Candidate.

(** The body of [for (const entry of recoveryCandidates)]. *)
Definition recoveryStep (recoveryMap : JsMap.t Z) (entry : Candidate.t) : JsMap.t Z :=
  match JsMap.get (Candidate.countryRegion entry) recoveryMap with
  | None =>
      JsMap.set (Candidate.countryRegion entry) (Candidate.totalRecovered entry) recoveryMap
  | Some current =>
      if (current =? 0)%Z && (0 <? Candidate.totalRecovered entry)%Z
      then JsMap.set (Candidate.countryRegion entry) (Candidate.totalRecovered entry)
             recoveryMap
      else recoveryMap
  end.

Definition recoveryMapOf (recoveryCandidates : list Candidate.t) : JsMap.t Z :=
  fold_left recoveryStep recoveryCandidates [].

Definition adjustedCountryTotals (countryTotals : list Stat.t) (recoveryMap : JsMap.t Z)
    : list Stat.t :=
  map (fun country =>
         match JsMap.get (Stat.countryRegion country) recoveryMap with
         | Some recovered => Stat.withRecovered recovered country
         | None => country
         end)
      countryTotals.

Definition topCountries (adjusted : list Stat.t) : list Stat.t := firstn 10 adjusted.

(** The recovered counts of the candidates of one country, in the order
    of the candidates. *)
Definition recoveredOfCountry (country : string) (candidates : list Candidate.t) : list Z :=
  map Candidate.totalRecovered
      (filter (fun entry => String.eqb (Candidate.countryRegion entry) country) candidates).

(** What the loop settles on for one country: the first count, or, when
    that is [0], the first positive count after it (and [0] without one). *)
Definition settled (recovered : list Z) : option Z :=
  match recovered with
  | [] => None
  | first :: later =>
      if (first =? 0)%Z then Some (hd 0%Z (filter (fun value => (0 <? value)%Z) later))
      else Some first
  end.

(** One turn of the loop as one country sees it. *)
Definition settleStep (current : option Z) (recovered : Z) : option Z :=
  match current with
  | None => Some recovered
  | Some value =>
      if (value =? 0)%Z && (0 <? recovered)%Z then Some recovered else Some value
  end.

(** Time values for ISO days, for the examples: days since 2020-01-01
    within January 2020, in milliseconds. *)
Definition januaryTime (text : string) : option Z :=
  match JsDate.parse text with
  | UTCDate 2020 1 day => Some (Z.of_nat (day - 1) * 86400000)%Z
  | _ => None
  end.

(** Three days of one country, latest first, as the import leaves them. *)
Definition threeDays : list Stat.t :=
  map Stat.imported
    [ {| CountryStats.countryRegion := "France"; CountryStats.date := UTCDate 2020 3 3;
         CountryStats.totalConfirmed := 212; CountryStats.totalDeaths := 4;
         CountryStats.totalRecovered := 12; CountryStats.totalActive := 196;
         CountryStats.incidentRate := None; CountryStats.caseFatalityRatio := None |};
      {| CountryStats.countryRegion := "France"; CountryStats.date := UTCDate 2020 3 2;
         CountryStats.totalConfirmed := 191; CountryStats.totalDeaths := 3;
         CountryStats.totalRecovered := 12; CountryStats.totalActive := 176;
         CountryStats.incidentRate := None; CountryStats.caseFatalityRatio := None |};
      {| CountryStats.countryRegion := "France"; CountryStats.date := UTCDate 2020 3 1;
         CountryStats.totalConfirmed := 130; CountryStats.totalDeaths := 2;
         CountryStats.totalRecovered := 12; CountryStats.totalActive := 116;
         CountryStats.incidentRate := None; CountryStats.caseFatalityRatio := None |} ].

(** * The population import ([scripts/importPopulation.ts]) *)

(** A record of the parsed file ([Record<string, string>]): the value of
    a column, [None] for [undefined]. *)
Definition Row : Type := string -> option string.

(** An element of [entries], and a row of [CountryPopulation]. *)
Module CountryPopulation.
Record t : Type := { country : string; year : Z; population : Z }.
End CountryPopulation.

(** [text.split(/\r?\n/)]; [line] is the line being read. *)
Fixpoint splitFrom (line : string) (text : string) : list string :=
  match text with
  | EmptyString => [line]
  | String "013" (String "010" rest) => line :: splitFrom EmptyString rest
  | String "010" rest => line :: splitFrom EmptyString rest
  | String c rest => splitFrom (line ++ String c EmptyString)%string rest
  end.

Definition splitLines (text : string) : list string := splitFrom EmptyString text.

(** [lines.join('\n')] *)
Definition joinLines (lines : list string) : string :=
  String.concat (String "010" EmptyString) lines.

(** The test of [findIndex]: the line starts with [Country Name], quoted
    or not. *)
Definition isHeader (line : string) : bool :=
  String.prefix (String "034" "Country Name" ++ String "034" EmptyString)%string line
  || String.prefix "Country Name" line.

Fixpoint findIndex {A : Type} (test : A -> bool) (l : list A) : option nat :=
  match l with
  | [] => None
  | x :: rest =>
      if test x then Some 0
      else match findIndex test rest with
           | Some i => Some (S i)
           | None => None
           end
  end.

Definition YEARS : list string := ["2020"; "2021"; "2022"; "2023"].

(** [Number(year)] for a year of [YEARS], a string of digits. *)
Definition numberOfYear (year : string) : Z :=
  match Num.parseInt year with
  | Some n => n
  | None => 0%Z
  end.

(** [Number.isFinite(x)] *)
Definition isFinite (x : Num.float) : bool :=
  match x with
  | S754_zero _ | S754_finite _ _ _ => true
  | S754_infinity _ | S754_nan => false
  end.

(** [BigInt(Math.trunc(x))] of a finite number: the integer towards zero. *)
Definition truncate (x : Num.float) : Z :=
  match x with
  | S754_finite sign m e =>
      let magnitude :=
        if (0 <=? e)%Z then (Z.pos m * 2 ^ e)%Z else (Z.pos m / 2 ^ (- e))%Z in
      if sign then (- magnitude)%Z else magnitude
  | _ => 0%Z
  end.

(** A population fits the BIGINT column. *)
Definition fitsBigInt (entry : CountryPopulation.t) : bool :=
  (- 2 ^ 63 <=? CountryPopulation.population entry)%Z
  && (CountryPopulation.population entry <? 2 ^ 63)%Z.

(** [CountryPopulation_country_year_key] *)
Definition populationConflicts (a b : CountryPopulation.t) : bool :=
  String.eqb (CountryPopulation.country a) (CountryPopulation.country b)
  && (CountryPopulation.year a =? CountryPopulation.year b)%Z.

(** [createMany({ data: chunk, skipDuplicates: true })] on the rows of the
    table. *)
Definition insertPopulation (table : list CountryPopulation.t) (entry : CountryPopulation.t)
    : list CountryPopulation.t :=
  if existsb (populationConflicts entry) table then table else table ++ [entry].

Definition createManyPopulation (chunk table : list CountryPopulation.t)
    : list CountryPopulation.t :=
  fold_left insertPopulation chunk table.

Inductive PopulationLog : Type :=
| LogImportPopulation
| LogFoundRows (rows : nat)
| LogPrepared (records : nat)
| LogClearing
| LogInserted (done total : nat)
| LogPopulationComplete
| LogPopulationError.

(** The table, the console and whether the client was disconnected. *)
Record PopulationWorld : Type := {
  populations : list CountryPopulation.t;
  printed : list PopulationLog;
  disconnected : bool
}.

Definition print (line : PopulationLog) (w : PopulationWorld) : PopulationWorld :=
  {| populations := populations w;
     printed := printed w ++ [line];
     disconnected := disconnected w |}.

Definition withPopulations (table : list CountryPopulation.t) (w : PopulationWorld)
    : PopulationWorld :=
  {| populations := table; printed := printed w; disconnected := disconnected w |}.

Definition chunkSize : nat := 1000.

(** The loop over the chunks, at [i] with [rest = entries.slice(i)]: a
    chunk with a population that does not fit its column is refused as a
    whole, and the error ends the loop. *)
Fixpoint insertChunks (fuel total i : nat) (rest : list CountryPopulation.t)
    (w : PopulationWorld) : Outcome * PopulationWorld :=
  match fuel, rest with
  | S fuel', _ :: _ =>
      let chunk := firstn chunkSize rest in
      if forallb fitsBigInt chunk then
        insertChunks fuel' total (i + chunkSize) (skipn chunkSize rest)
          (print (LogInserted (Nat.min (i + chunkSize) total) total)
             (withPopulations (createManyPopulation chunk (populations w)) w))
      else (Rejected, w)
  | _, _ => (Resolved, w)
  end.

Section ImportPopulation.

(** [Papa.parse(data, { header: true, skipEmptyLines: true }).data] *)
Variable papaParse : string -> list Row.

(** [Number(value)] *)
Variable toNumber : string -> Num.float.

(** [None]: the file cannot be read, or no line is a header. *)
Definition loadRows (file : option string) : option (list Row) :=
  match file with
  | None => None
  | Some text =>
      let lines := splitLines text in
      match findIndex isHeader lines with
      | None => None
      | Some headerIndex => Some (papaParse (joinLines (skipn headerIndex lines)))
      end
  end.

(** The body of [for (const year of YEARS)]. *)
Definition entryOfYear (row : Row) (country : string) (year : string)
    : list CountryPopulation.t :=
  match row year with
  | Some (String _ _ as value) =>
      let populationNum := toNumber value in
      if isFinite populationNum
      then [ {| CountryPopulation.country := country;
                CountryPopulation.year := numberOfYear year;
                CountryPopulation.population := truncate populationNum |} ]
      else []
  | _ => []
  end.

(** The body of [for (const row of rows)]. *)
Definition entriesOfRow (row : Row) : list CountryPopulation.t :=
  match row "Country Name" with
  | Some (String _ _ as country) => flat_map (entryOfYear row country) YEARS
  | _ => []
  end.

Definition entriesOf (rows : list Row) : list CountryPopulation.t :=
  flat_map entriesOfRow rows.

Definition importPopulation (file : option string) (w : PopulationWorld)
    : Outcome * PopulationWorld :=
  let w1 := print LogImportPopulation w in
  match loadRows file with
  | None => (Rejected, w1)
  | Some rows =>
      let w2 := print (LogFoundRows (List.length rows)) w1 in
      let entries := entriesOf rows in
      let w3 := print (LogPrepared (List.length entries)) w2 in
      let w4 := withPopulations [] (print LogClearing w3) in
      match insertChunks (List.length entries) (List.length entries) 0 entries w4 with
      | (Resolved, w5) => (Resolved, print LogPopulationComplete w5)
      | (Rejected, w5) => (Rejected, w5)
      end
  end.

(** The script: the exit status, [0] when the process ends by itself.
    [process.exit(1)] ends the process inside [catch], before the callback
    of [finally] runs. *)
Definition populationMain (file : option string) (w : PopulationWorld)
    : nat * PopulationWorld :=
  match importPopulation file w with
  | (Resolved, w') =>
      (0, {| populations := populations w'; printed := printed w'; disconnected := true |})
  | (Rejected, w') => (1, print LogPopulationError w')
  end.

End ImportPopulation.

(** The first entry of a country and year. *)
Definition firstEntry (country : string) (year : Z) (entries : list CountryPopulation.t)
    : option CountryPopulation.t :=
  find (fun entry =>
          String.eqb (CountryPopulation.country entry) country
          && (CountryPopulation.year entry =? year)%Z)
       entries.

Definition freshPopulationWorld : PopulationWorld :=
  {| populations := []; printed := []; disconnected := false |}.

(** A file of the World Bank layout, and the records of its data part. *)
Definition populationFile : string :=
  joinLines [ String "034" "Data Source" ++ String "034" ",World Development Indicators";
              EmptyString;
              "Country Name,Country Code,2020,2021,2022,2023,";
              "France,FRA,67571107,67764304,,abc,";
              "France,FRA,1,2,3,4,";
              ",XXX,5,6,7,8," ]%string.

Definition populationRow (country y2020 y2021 y2022 y2023 : string) : Row :=
  fun column =>
    if String.eqb column "Country Name" then Some country
    else if String.eqb column "2020" then Some y2020
    else if String.eqb column "2021" then Some y2021
    else if String.eqb column "2022" then Some y2022
    else if String.eqb column "2023" then Some y2023
    else None.

Definition populationRecords (data : string) : list Row :=
  [ populationRow "France" "67571107" "67764304" EmptyString "abc";
    populationRow "France" "1" "2" "3" "4";
    populationRow EmptyString "5" "6" "7" "8" ].
(** * Properties *)

(** ** The file enumerator *)

(** C1.  The enumerator orders the names as strings, and a name starts with
    the month: on a directory holding the reports of 31 December 2020 and of
    1 January 2021 the later report is listed, and processed, first, so the
    dates are not processed in ascending order although the code announces a
    sort by date; the summary then shows 31 December 2020 as the latest
    day. *)
Theorem listing_by_name_is_not_by_date :
  let files := listCsvFiles (readdir Sample.newYear) in
  let w := snd (main Sample.newYear Sample.freshWorld) in
  files = ["01-01-2021.csv"; "12-31-2020.csv"]
  /\ reportDates files = [UTCDate 2021 1 1; UTCDate 2020 12 31]
  /\ chronological (reportDates files) = false
  /\ map GlobalStats.date (dailyGlobalStats (db w)) = [UTCDate 2021 1 1; UTCDate 2020 12 31]
  /\ In (LogSummary 2 2 1
           (Some {| GlobalStats.date := UTCDate 2020 12 31;
                    GlobalStats.totalConfirmed := 20000;
                    GlobalStats.totalDeaths := 300;
                    GlobalStats.totalRecovered := 0;
                    GlobalStats.totalActive := 19700 |}))
        (console w).
Proof.
  vm_compute. repeat split; try reflexivity.
  do 5 right. left. reflexivity.
Qed.

(** ** Dates and file names *)

Module JsDateFacts.

Lemma eqb_eq (a b : Date) : JsDate.eqb a b = true <-> a = b.
Proof.
  destruct a as [|y m d], b as [|y' m' d']; simpl; split; try congruence; try tauto.
  - rewrite !andb_true_iff, !Nat.eqb_eq. intros [[-> ->] ->]. reflexivity.
  - intros [= -> -> ->]. now rewrite !Nat.eqb_refl.
Qed.

Lemma daysInMonth_bounds (y m : nat) : 28 <= JsDate.daysInMonth y m <= 31.
Proof.
  unfold JsDate.daysInMonth.
  do 12 (destruct m as [|m]; [try destruct (JsDate.isLeap y); lia|]). lia.
Qed.

Lemma make_wellFormed (y m d : nat) :
  y < 100 * 100 -> JsDate.make y m d <> InvalidDate -> JsDate.wellFormed (JsDate.make y m d).
Proof.
  intros Hy. unfold JsDate.make.
  destruct ((1 <=? m) && (m <=? 12) && (1 <=? d) && (d <=? 31))%nat eqn:E; [|congruence].
  intros _. rewrite !andb_true_iff, !Nat.leb_le in E. destruct E as [[[Hm1 Hm2] Hd1] Hd2].
  pose proof (daysInMonth_bounds y m) as Hb.
  pose proof (daysInMonth_bounds y (m + 1)) as Hb'.
  destruct (d <=? JsDate.daysInMonth y m)%nat eqn:E; simpl.
  - apply Nat.leb_le in E. lia.
  - apply Nat.leb_gt in E.
    assert (m <> 12) by (intros ->; simpl in E; lia). lia.
Qed.

Lemma isDigit_value (c : ascii) : Str.isDigit c = true -> Str.digitValue c <= 9.
Proof.
  unfold Str.isDigit, Str.digitValue. rewrite andb_true_iff, !Nat.leb_le. lia.
Qed.

Lemma parse_wellFormed (s : string) :
  JsDate.parse s <> InvalidDate -> JsDate.wellFormed (JsDate.parse s).
Proof.
  unfold JsDate.parse.
  do 10 (destruct s as [|? s]; [congruence|]). destruct s; [|congruence].
  destruct (_ && _) eqn:E; [|congruence].
  apply andb_true_iff in E. destruct E as [_ E]. cbn [forallb] in E.
  rewrite !andb_true_iff in E. destruct E as (H1 & H2 & H3 & H4 & _).
  apply isDigit_value in H1, H2, H3, H4.
  apply make_wellFormed. unfold Str.decimal. cbn [Str.decimalFrom]. lia.
Qed.

Lemma digit_roundtrip (n : nat) :
  n < 10 -> Str.isDigit (Str.digitChar n) = true /\ Str.digitValue (Str.digitChar n) = n.
Proof.
  intros H. do 10 (destruct n as [|n]; [now split|]). lia.
Qed.

Lemma four_digits (n : nat) :
  n < 100 * 100 ->
  10 * (10 * (10 * (10 * 0 + n / 1000 mod 10) + n / 100 mod 10) + n / 10 mod 10) + n mod 10 = n.
Proof.
  intros H.
  assert (n / 1000 = n / 100 / 10) as -> by (rewrite Nat.Div0.div_div; reflexivity).
  assert (n / 100 = n / 10 / 10) as -> by (rewrite Nat.Div0.div_div; reflexivity).
  pose proof (Nat.div_mod_eq n 10) as E1.
  pose proof (Nat.div_mod_eq (n / 10) 10) as E2.
  pose proof (Nat.div_mod_eq (n / 10 / 10) 10) as E3.
  pose proof (Nat.div_mod_eq (n / 10 / 10 / 10) 10) as E4.
  assert (n / 10 / 10 / 10 / 10 = 0).
  { rewrite !Nat.Div0.div_div. apply Nat.div_small. simpl. lia. }
  lia.
Qed.

Lemma parse_digits (y1 y2 y3 y4 m1 m2 d1 d2 : nat) :
  y1 < 10 -> y2 < 10 -> y3 < 10 -> y4 < 10 ->
  m1 < 10 -> m2 < 10 -> d1 < 10 -> d2 < 10 ->
  JsDate.parse
    (String (Str.digitChar y1) (String (Str.digitChar y2)
      (String (Str.digitChar y3) (String (Str.digitChar y4) (String "-"
        (String (Str.digitChar m1) (String (Str.digitChar m2) (String "-"
          (String (Str.digitChar d1) (String (Str.digitChar d2) EmptyString))))))))))
  = JsDate.make (10 * (10 * (10 * (10 * 0 + y1) + y2) + y3) + y4)
                (10 * (10 * 0 + m1) + m2) (10 * (10 * 0 + d1) + d2).
Proof.
  intros.
  repeat match goal with
         | H : ?n < 10 |- _ => destruct (digit_roundtrip n H) as [? ?]; clear H
         end.
  unfold JsDate.parse, Str.decimal. cbn [Str.decimalFrom forallb].
  change (Ascii.eqb "-" "-") with true.
  repeat match goal with
         | H : Str.isDigit _ = true |- _ => rewrite H; clear H
         | H : Str.digitValue _ = _ |- _ => rewrite H; clear H
         end.
  reflexivity.
Qed.

(** The ISO day of a well-formed date reads back as that date. *)
Lemma parse_isoDay (d : Date) (k : string) :
  JsDate.wellFormed d -> JsDate.isoDay d = Some k -> JsDate.parse k = d.
Proof.
  destruct d as [|y m dd]; [contradiction|].
  intros (Hy & Hm & Hd) [= <-].
  pose proof (daysInMonth_bounds y m) as Hb.
  pose proof (fun n => Nat.mod_upper_bound n 10 ltac:(lia)) as Hlt.
  unfold Str.pad4, Str.pad2.
  change (JsDate.parse _) with
    (JsDate.parse
       (String (Str.digitChar (y / 1000 mod 10)) (String (Str.digitChar (y / 100 mod 10))
         (String (Str.digitChar (y / 10 mod 10)) (String (Str.digitChar (y mod 10)) (String "-"
           (String (Str.digitChar (m / 10 mod 10)) (String (Str.digitChar (m mod 10)) (String "-"
             (String (Str.digitChar (dd / 10 mod 10))
                (String (Str.digitChar (dd mod 10)) EmptyString))))))))))).
  rewrite parse_digits by apply Hlt.
  rewrite (four_digits y Hy).
  replace (10 * (10 * 0 + m / 10 mod 10) + m mod 10) with m.
  2:{ rewrite (Nat.mod_small (m / 10)) by (apply Nat.Div0.div_lt_upper_bound; lia).
      pose proof (Nat.div_mod_eq m 10). lia. }
  replace (10 * (10 * 0 + dd / 10 mod 10) + dd mod 10) with dd.
  2:{ rewrite (Nat.mod_small (dd / 10)) by (apply Nat.Div0.div_lt_upper_bound; lia).
      pose proof (Nat.div_mod_eq dd 10). lia. }
  unfold JsDate.make.
  replace ((1 <=? m) && (m <=? 12) && (1 <=? dd) && (dd <=? 31))%nat with true.
  - replace (dd <=? JsDate.daysInMonth y m)%nat with true; [reflexivity|].
    symmetry. apply Nat.leb_le. lia.
  - symmetry. rewrite !andb_true_iff, !Nat.leb_le. lia.
Qed.

Lemma isoDay_inj (d d' : Date) (k : string) :
  JsDate.wellFormed d -> JsDate.wellFormed d' ->
  JsDate.isoDay d = Some k -> JsDate.isoDay d' = Some k -> d = d'.
Proof.
  intros Hd Hd' Hk Hk'.
  rewrite <- (parse_isoDay d k Hd Hk). apply parse_isoDay; assumption.
Qed.

(** A file name that resolves to a date key resolves to a well-formed
    date. *)
Lemma parseDate_wellFormed (file : string) (d : Date) (k : string) :
  parseDate file = Some d -> JsDate.isoDay d = Some k -> JsDate.wellFormed d.
Proof.
  unfold parseDate. destruct (matchDate file) as [[[month day] year]|]; [|discriminate].
  intros [= <-] Hk. apply parse_wellFormed. intros E. rewrite E in Hk. discriminate.
Qed.

End JsDateFacts.

(** ** The coercions of a record *)

Lemma parseInteger_default (value : option string) (defaultValue : Z) :
  noInteger value = true -> parseInteger value defaultValue = defaultValue.
Proof.
  unfold noInteger, parseInteger.
  destruct value as [[|c s]|]; try reflexivity.
  destruct (Num.parseInt (String c s)); [discriminate | reflexivity].
Qed.

Lemma parseNumber_default (value : option string) (defaultValue : Num.float) :
  noNumber value = true -> parseNumber value defaultValue = defaultValue.
Proof.
  unfold noNumber, parseNumber.
  destruct value as [[|c s]|]; try reflexivity.
  intros ->. reflexivity.
Qed.

(** With a present first alias [a || b] is [a]; otherwise it is [b]. *)
Lemma noNumber_or (a b : option string) :
  noNumber a = true -> noNumber b = true -> noNumber (Str.or a b) = true.
Proof.
  destruct a as [[|c s]|]; simpl; auto.
Qed.

(** A number equal to zero is not above zero. *)
Lemma isZero_not_gt0 (x : Num.float) : Num.isZero x = true -> Num.gt0 x = false.
Proof.
  unfold Num.isZero, Num.gt0, Num.zero, SFeqb, SFltb, SFcompare.
  destruct x as [[]|[]| |[] m e]; simpl; congruence.
Qed.

(** What a record pushes onto [dataToInsert], read off the loop body. *)
Lemma emits_inv (reportDate : Date) (st : FileState) (row : DailyReportRow)
    (detail : DailyReport.t) :
  emits reportDate st row detail ->
  exists countryRegion,
    countryOf row = Some countryRegion /\ detail = detailRow reportDate countryRegion row.
Proof.
  unfold emits, processRow.
  destruct (countryOf row) as [c|].
  - cbn [dataToInsert]. intros H. apply app_inv_head in H.
    exists c. split; [reflexivity|]. now injection H.
  - intros H. exfalso.
    apply (f_equal (@List.length _)) in H. rewrite length_app in H. simpl in H. lia.
Qed.

Ltac emitted H :=
  apply emits_inv in H; destruct H as (?c & ?Hc & ->); cbn.

(** C4.  A record whose [Active] column is missing, empty or not a numeral
    is emitted with [active = confirmed - deaths - recovered]; the
    difference is stored as it is, and is negative for a record with more
    deaths than confirmed cases. *)
Theorem active_defaults_to_difference :
  (forall reportDate st row detail,
      emits reportDate st row detail ->
      noInteger (Active row) = true ->
      DailyReport.active detail =
        (DailyReport.confirmed detail - DailyReport.deaths detail
         - DailyReport.recovered detail)%Z)
  /\ (exists reportDate st row detail,
         emits reportDate st row detail
         /\ noInteger (Active row) = true
         /\ (DailyReport.active detail < 0)%Z).
Proof.
  split.
  - intros reportDate st row detail H Hactive.
    emitted H. apply parseInteger_default, Hactive.
  - exists (UTCDate 2020 3 1), Sample.emptyFileState, (Sample.line "FR" "5" "50" "").
    eexists. split; [reflexivity|]. split; [reflexivity|]. reflexivity.
Qed.

(** C5.  A record whose incidence rate (or case-fatality ratio) parses to
    zero is emitted with that field absent; a missing, empty or
    non-numeric column is such a record, as it parses to the default 0. *)
Theorem zero_rate_is_stored_as_null (reportDate : Date) (st : FileState)
    (row : DailyReportRow) (detail : DailyReport.t) :
  emits reportDate st row detail ->
  let rate := Str.or (Incident_Rate row) (Incidence_Rate row) in
  let ratio := Str.or (Case'Fatality_Ratio row) (Case_Fatality_Ratio row) in
  (Num.isZero (parseNumber rate Num.zero) = true -> DailyReport.incidentRate detail = None)
  /\ (Num.isZero (parseNumber ratio Num.zero) = true -> DailyReport.caseFatalityRatio detail = None)
  /\ (noNumber rate = true -> DailyReport.incidentRate detail = None)
  /\ (noNumber ratio = true -> DailyReport.caseFatalityRatio detail = None).
Proof.
  intros H rate ratio.
  emitted H. unfold positiveOrNull, incidentRateOf, fatalityRatioOf. fold rate ratio.
  repeat split; intros Hz.
  - now rewrite (isZero_not_gt0 _ Hz).
  - now rewrite (isZero_not_gt0 _ Hz).
  - now rewrite (parseNumber_default _ _ Hz).
  - now rewrite (parseNumber_default _ _ Hz).
Qed.

(** C10.  A record whose latitude columns ([Lat], [Latitude]) are each
    missing, empty or non-numeric is emitted with latitude 0, and likewise
    for the longitude ([Long_], [Longitude]): the coordinates of a detail
    row are always numbers, never absent. *)
Theorem missing_coordinates_are_zero (reportDate : Date) (st : FileState)
    (row : DailyReportRow) (detail : DailyReport.t) :
  emits reportDate st row detail ->
  (noNumber (Lat row) = true -> noNumber (Latitude row) = true ->
   DailyReport.latitude detail = Num.zero)
  /\ (noNumber (Long_ row) = true -> noNumber (Longitude row) = true ->
      DailyReport.longitude detail = Num.zero).
Proof.
  intros H. emitted H.
  split; intros Ha Hb; apply parseNumber_default, noNumber_or; assumption.
Qed.

Lemma active_defaults_to_difference_witness :
  exists detail,
    emits (UTCDate 2020 3 1) Sample.emptyFileState (Sample.line "FR" "5" "50" "") detail
    /\ noInteger (Active (Sample.line "FR" "5" "50" "")) = true
    /\ DailyReport.active detail =
         (DailyReport.confirmed detail - DailyReport.deaths detail
          - DailyReport.recovered detail)%Z.
Proof.
  eexists. split; [reflexivity|]. split; [reflexivity|].
  apply (proj1 active_defaults_to_difference (UTCDate 2020 3 1) Sample.emptyFileState
           (Sample.line "FR" "5" "50" "")); reflexivity.
Defined.

Lemma zero_rate_is_stored_as_null_witness :
  exists detail,
    emits (UTCDate 2020 4 1) Sample.emptyFileState
      (Sample.county "Abbeville" "South Carolina" "US" "4") detail
    /\ Num.isZero (parseNumber (Some "0.0") Num.zero) = true
    /\ noNumber (Some "n/a") = true
    /\ DailyReport.incidentRate detail = None
    /\ DailyReport.caseFatalityRatio detail = None.
Proof.
  eexists. split; [reflexivity|]. split; [reflexivity|]. split; [reflexivity|].
  destruct (zero_rate_is_stored_as_null (UTCDate 2020 4 1) Sample.emptyFileState
              (Sample.county "Abbeville" "South Carolina" "US" "4") _ eq_refl)
    as (Hrate & _ & _ & Hratio).
  split; [apply Hrate | apply Hratio]; reflexivity.
Defined.

Lemma missing_coordinates_are_zero_witness :
  exists detail,
    emits (UTCDate 2020 3 1) Sample.emptyFileState (Sample.line "FR" "5" "50" "") detail
    /\ noNumber (Lat (Sample.line "FR" "5" "50" "")) = true
    /\ noNumber (Latitude (Sample.line "FR" "5" "50" "")) = true
    /\ noNumber (Long_ (Sample.line "FR" "5" "50" "")) = true
    /\ noNumber (Longitude (Sample.line "FR" "5" "50" "")) = true
    /\ DailyReport.latitude detail = Num.zero
    /\ DailyReport.longitude detail = Num.zero.
Proof.
  eexists. split; [reflexivity|]. do 4 (split; [reflexivity|]).
  destruct (missing_coordinates_are_zero (UTCDate 2020 3 1) Sample.emptyFileState
              (Sample.line "FR" "5" "50" "") _ eq_refl) as (Hlat & Hlong).
  split; [apply Hlat | apply Hlong]; reflexivity.
Defined.

(** ** The missing directory *)

(** C9.  When the input directory does not exist the run fails before it
    touches the database: the tables are as they were, the only statement
    sent is the final disconnect, and the process exits with status 1. *)
Theorem missing_directory_is_fatal (fs : FileSystem) (w : World) :
  dirExists fs = false ->
  fst (main fs w) = 1
  /\ db (snd (main fs w)) = db w
  /\ ops (snd (main fs w)) = ops w ++ [Disconnect]
  /\ filter isWrite (ops (snd (main fs w))) = filter isWrite (ops w)
  /\ console (snd (main fs w)) = console w ++ [LogErrorDuringImport; LogFatalError].
Proof.
  intros H. unfold main, importDailyReports. rewrite H. cbn.
  repeat split.
  - rewrite filter_app. cbn. apply app_nil_r.
  - now rewrite <- app_assoc.
Qed.

Lemma missing_directory_is_fatal_witness :
  dirExists Sample.missingDirectory = false
  /\ main Sample.missingDirectory Sample.freshWorld
     = (1, {| db := Sample.emptyDb; ops := [Disconnect];
              console := [LogErrorDuringImport; LogFatalError] |}).
Proof.
  split; [reflexivity|].
  destruct (missing_directory_is_fatal Sample.missingDirectory Sample.freshWorld eq_refl)
    as (Hexit & Hdb & Hops & _ & Hconsole).
  destruct (main Sample.missingDirectory Sample.freshWorld) as [code [d o c]].
  cbn in *. now subst.
Defined.

(** ** Facts about [Map] *)

Module JsMapFacts.
Section Facts.
Context {V : Type}.
Implicit Types (m : JsMap.t V) (k : string) (v : V).

Lemma get_set_same k v m : JsMap.get k (JsMap.set k v m) = Some v.
Proof.
  induction m as [|[k' v'] m IH]; simpl.
  - now rewrite String.eqb_refl.
  - destruct (String.eqb k k') eqn:E; simpl.
    + now rewrite String.eqb_refl.
    + now rewrite E.
Qed.

Lemma get_set_other k k' v m :
  k <> k' -> JsMap.get k' (JsMap.set k v m) = JsMap.get k' m.
Proof.
  intros Hne. induction m as [|[k0 v0] m IH]; simpl.
  - destruct (String.eqb_spec k' k); [congruence | reflexivity].
  - destruct (String.eqb_spec k k0) as [->|Hk]; simpl.
    + destruct (String.eqb_spec k' k0); [congruence | reflexivity].
    + now rewrite IH.
Qed.


Lemma get_In k v m : JsMap.get k m = Some v -> In (k, v) m.
Proof.
  induction m as [|[k' v'] m IH]; simpl; [discriminate|].
  destruct (String.eqb_spec k k') as [->|Hk].
  - intros [= ->]. now left.
  - intros H. right. auto.
Qed.

Lemma get_None k m : JsMap.get k m = None -> ~ In k (JsMap.keys m).
Proof.
  induction m as [|[k' v'] m IH]; simpl; [tauto|].
  destruct (String.eqb_spec k k') as [->|Hk]; [discriminate|].
  intros H [E|Hin]; [congruence | now apply IH].
Qed.

Lemma In_get k v m : NoDup (JsMap.keys m) -> In (k, v) m -> JsMap.get k m = Some v.
Proof.
  induction m as [|[k' v'] m IH]; simpl; [tauto|].
  intros Hnd [E|Hin].
  - injection E as -> ->. now rewrite String.eqb_refl.
  - inversion Hnd as [|? ? Hnotin Hnd']; subst.
    destruct (String.eqb_spec k k') as [->|Hk].
    + exfalso. apply Hnotin. change k' with (fst (k', v)). now apply in_map.
    + auto.
Qed.

Lemma keys_set k v m :
  JsMap.keys (JsMap.set k v m) =
  if JsMap.has k m then JsMap.keys m else JsMap.keys m ++ [k].
Proof.
  unfold JsMap.has. induction m as [|[k' v'] m IH]; simpl; [reflexivity|].
  destruct (String.eqb_spec k k') as [->|Hk]; simpl; [reflexivity|].
  rewrite IH. now destruct (JsMap.get k m).
Qed.

Lemma NoDup_keys_set k v m :
  NoDup (JsMap.keys m) -> NoDup (JsMap.keys (JsMap.set k v m)).
Proof.
  intros Hnd. rewrite keys_set. unfold JsMap.has.
  destruct (JsMap.get k m) eqn:E; [assumption|].
  apply get_None in E.
  apply NoDup_app; [assumption | repeat constructor; simpl; tauto |].
  intros x Hx [<-|[]]. contradiction.
Qed.

End Facts.
End JsMapFacts.

(** ** The run is a function of the directory *)

Lemma db_say (l : Log) (w : World) : db (say l w) = db w.
Proof. reflexivity. Qed.

Lemma db_insertBatches (data : list DailyReport.t) (w w' : World) :
  db w = db w' -> db (insertBatches data w) = db (insertBatches data w').
Proof.
  unfold insertBatches. generalize (batches data) as bs.
  intros bs. revert w w'.
  induction bs as [|b bs IH]; simpl; intros w w' H; [assumption|].
  apply IH. unfold createManyDailyReport. cbn. now rewrite H.
Qed.

Lemma processFile_sameData (fs : FileSystem) (st st' : RunState) (file : string) :
  sameData st st' -> sameData (processFile fs st file) (processFile fs st' file).
Proof.
  intros (Hdb & Hn & Hg & Hc). unfold processFile.
  destruct (parseDate file) as [reportDate|]; [|now repeat split].
  destruct (JsDate.isoDay reportDate) as [dateKey|]; [|now repeat split].
  destruct (readCSVFile fs file) as [rows|]; [|now repeat split].
  cbn [world totalRecords globalStatsByDate countryStatsByDate withWorld].
  rewrite Hc, Hg, Hn. repeat split. cbn [world].
  rewrite !db_say. apply db_insertBatches. now rewrite !db_say.
Qed.

Lemma fold_processFile_sameData (fs : FileSystem) (files : list string) (st st' : RunState) :
  sameData st st' ->
  sameData (fold_left (processFile fs) files st) (fold_left (processFile fs) files st').
Proof.
  revert st st'. induction files as [|f files IH]; simpl; intros st st' H; [assumption|].
  apply IH, processFile_sameData, H.
Qed.

Lemma processFiles_sameData (fs : FileSystem) (files : list string) (w w' : World) :
  db w = db w' -> sameData (processFiles fs files w) (processFiles fs files w').
Proof.
  intros H. apply fold_processFile_sameData. now repeat split.
Qed.

Lemma createGlobalStats_sameOutcome (w w' : World) (row : GlobalStats.t) :
  db w = db w' -> sameOutcome (createGlobalStats w row) (createGlobalStats w' row).
Proof.
  intros H. unfold createGlobalStats. rewrite H.
  destruct (Db.createGlobal row (dailyGlobalStats (db w'))); cbn; congruence.
Qed.

Lemma createCountryStats_sameOutcome (w w' : World) (row : CountryStats.t) :
  db w = db w' -> sameOutcome (createCountryStats w row) (createCountryStats w' row).
Proof.
  intros H. unfold createCountryStats. rewrite H.
  destruct (Db.createCountry row (countryStats (db w'))); cbn; congruence.
Qed.

Lemma forEach_sameOutcome {A : Type} (body : World -> A -> World + World) :
  (forall w w' x, db w = db w' -> sameOutcome (body w x) (body w' x)) ->
  forall l w w', db w = db w' -> sameOutcome (forEach body l w) (forEach body l w').
Proof.
  intros Hbody. induction l as [|x l IH]; simpl; intros w w' H; [assumption|].
  specialize (Hbody w w' x H).
  destruct (body w x), (body w' x); cbn in Hbody; try contradiction; auto.
Qed.

Lemma insertStatistics_sameData (st st' : RunState) :
  sameData st st' -> sameOutcome (insertStatistics st) (insertStatistics st').
Proof.
  intros (Hdb & Hn & Hg & Hc). unfold insertStatistics. rewrite Hg, Hc.
  pose proof (forEach_sameOutcome createGlobalStats createGlobalStats_sameOutcome
                (JsMap.values (globalStatsByDate st')) _ _ Hdb) as H1.
  destruct (forEach createGlobalStats _ (world st)) as [w3|w3],
           (forEach createGlobalStats _ (world st')) as [w3'|w3'];
    cbn in H1; try contradiction; [exact H1|].
  apply (forEach_sameOutcome createCountryStats createCountryStats_sameOutcome), H1.
Qed.

(** What a run leaves from the state of its loop over the files. *)
Lemma sameData_outcome (st st' : RunState) :
  sameData st st' ->
  let finish st :=
    match insertStatistics st with
    | inl w' => rejected w'
    | inr w' => (Resolved, issue Disconnect (db w') (say (summary st) w'))
    end in
  fst (finish st) = fst (finish st') /\ db (snd (finish st)) = db (snd (finish st')).
Proof.
  intros H finish. pose proof (insertStatistics_sameData _ _ H) as Hout.
  unfold finish.
  destruct (insertStatistics st), (insertStatistics st'); cbn in Hout |- *;
    try contradiction; now split.
Qed.

(** The tables after a run over an existing directory, and whether the run
    succeeds, do not depend on the world it starts in. *)
Lemma importDailyReports_from_any_world (fs : FileSystem) (w w' : World) :
  dirExists fs = true ->
  fst (importDailyReports fs w) = fst (importDailyReports fs w')
  /\ db (snd (importDailyReports fs w)) = db (snd (importDailyReports fs w')).
Proof.
  intros Hdir. unfold importDailyReports. rewrite Hdir. cbn [negb]. cbv zeta.
  apply sameData_outcome, processFiles_sameData. repeat split.
Qed.

Lemma main_unfold (fs : FileSystem) (w : World) :
  fst (main fs w) = match fst (importDailyReports fs w) with Resolved => 0 | Rejected => 1 end
  /\ db (snd (main fs w)) = db (snd (importDailyReports fs w)).
Proof.
  unfold main. now destruct (importDailyReports fs w) as [[] w'].
Qed.

(** C7.  A second run over the same directory leaves the three tables
    exactly as the first run left them, and ends as the first run ended. *)
Theorem rerun_gives_same_tables (fs : FileSystem) (w : World) :
  let first := snd (main fs w) in
  let second := snd (main fs first) in
  db second = db first /\ fst (main fs first) = fst (main fs w).
Proof.
  cbv zeta.
  destruct (main_unfold fs w) as (Hexit & Hdb).
  destruct (main_unfold fs (snd (main fs w))) as (Hexit' & Hdb').
  rewrite Hexit, Hexit', Hdb, Hdb'.
  destruct (dirExists fs) eqn:Hdir.
  - destruct (importDailyReports_from_any_world fs (snd (main fs w)) w Hdir) as (-> & ->).
    now split.
  - unfold importDailyReports. rewrite Hdir. cbn. split; [|reflexivity].
    rewrite Hdb. unfold importDailyReports. rewrite Hdir. reflexivity.
Qed.

(** ** The statistics are always written *)

Lemma In_set {V : Type} (k : string) (v : V) (m : JsMap.t V) (k' : string) (v' : V) :
  In (k', v') (JsMap.set k v m) -> (k' = k /\ v' = v) \/ In (k', v') m.
Proof.
  induction m as [|[k0 v0] m IH]; simpl.
  - intros [[= <- <-]|[]]. now left.
  - destruct (String.eqb_spec k k0) as [->|Hk]; simpl.
    + intros [[= <- <-]|Hin]; [now left | right; now right].
    + intros [E|Hin]; [right; now left|].
      destruct (IH Hin) as [?|?]; [now left | right; now right].
Qed.

Lemma existsb_false {A : Type} (p : A -> bool) (l : list A) :
  (forall x, In x l -> p x = false) -> existsb p l = false.
Proof.
  intros H. destruct (existsb p l) eqn:E; [|reflexivity].
  apply existsb_exists in E. destruct E as (x & Hin & Hp).
  rewrite (H x Hin) in Hp. discriminate.
Qed.

Lemma forEach_createGlobalStats_ok (rows : list GlobalStats.t) :
  forall w,
    NoDup (map GlobalStats.date (dailyGlobalStats (db w) ++ rows)) ->
    exists w',
      forEach createGlobalStats rows w = inr w'
      /\ dailyGlobalStats (db w') = dailyGlobalStats (db w) ++ rows
      /\ dailyReport (db w') = dailyReport (db w)
      /\ countryStats (db w') = countryStats (db w)
      /\ console w' = console w.
Proof.
  induction rows as [|row rows IH]; intros w Hnd.
  - exists w. rewrite app_nil_r. now repeat split.
  - cbn [forEach].
    assert (Hstep : createGlobalStats w row =
                    inr (issue (CreateGlobal row)
                           {| dailyReport := dailyReport (db w);
                              dailyGlobalStats := dailyGlobalStats (db w) ++ [row];
                              countryStats := countryStats (db w) |} w)).
    { unfold createGlobalStats, Db.createGlobal. rewrite existsb_false; [reflexivity|].
      intros x Hin. destruct (Db.globalConflicts row x) eqn:E; [|reflexivity].
      apply JsDateFacts.eqb_eq in E. exfalso.
      rewrite map_app in Hnd. cbn [map] in Hnd. apply NoDup_remove_2 in Hnd.
      apply Hnd, in_or_app. left. rewrite E. now apply in_map. }
    rewrite Hstep. set (w1 := issue _ _ w).
    destruct (IH w1) as (w' & Hrun & Hg & Hd & Hc & Hl).
    { cbn. now rewrite <- app_assoc. }
    exists w'. rewrite Hrun, Hg, Hd, Hc, Hl. cbn. rewrite <- app_assoc. now repeat split.
Qed.

Lemma countryConflicts_eq (a b : CountryStats.t) :
  Db.countryConflicts a b = true -> countryKey a = countryKey b.
Proof.
  unfold Db.countryConflicts, countryKey. rewrite andb_true_iff, String.eqb_eq.
  intros [-> H]. apply JsDateFacts.eqb_eq in H. now rewrite H.
Qed.

Lemma forEach_createCountryStats_ok (rows : list CountryStats.t) :
  forall w,
    NoDup (map countryKey (countryStats (db w) ++ rows)) ->
    exists w',
      forEach createCountryStats rows w = inr w'
      /\ countryStats (db w') = countryStats (db w) ++ rows
      /\ dailyReport (db w') = dailyReport (db w)
      /\ dailyGlobalStats (db w') = dailyGlobalStats (db w)
      /\ console w' = console w.
Proof.
  induction rows as [|row rows IH]; intros w Hnd.
  - exists w. rewrite app_nil_r. now repeat split.
  - cbn [forEach].
    assert (Hstep : createCountryStats w row =
                    inr (issue (CreateCountry row)
                           {| dailyReport := dailyReport (db w);
                              dailyGlobalStats := dailyGlobalStats (db w);
                              countryStats := countryStats (db w) ++ [row] |} w)).
    { unfold createCountryStats, Db.createCountry. rewrite existsb_false; [reflexivity|].
      intros x Hin. destruct (Db.countryConflicts row x) eqn:E; [|reflexivity].
      apply countryConflicts_eq in E. exfalso.
      rewrite map_app in Hnd. cbn [map] in Hnd. apply NoDup_remove_2 in Hnd.
      apply Hnd, in_or_app. left. rewrite E. now apply in_map. }
    rewrite Hstep. set (w1 := issue _ _ w).
    destruct (IH w1) as (w' & Hrun & Hc & Hd & Hg & Hl).
    { cbn. now rewrite <- app_assoc. }
    exists w'. rewrite Hrun, Hg, Hd, Hc, Hl. cbn. rewrite <- app_assoc. now repeat split.
Qed.

(** Rows whose keys are told apart by some reading of them are distinct. *)
Lemma NoDup_map_through {A B C : Type} (f : A -> B) (g : B -> C) (l : list A) :
  NoDup (map (fun x => g (f x)) l) -> NoDup (map f l).
Proof.
  intros H. apply (NoDup_map_inv g). now rewrite map_map.
Qed.

Lemma CountryMapsOk_set (byDate : JsMap.t (JsMap.t CountryAcc.t)) (k : string)
    (m : JsMap.t CountryAcc.t) :
  CountryMapsOk byDate ->
  (exists d, JsDate.wellFormed d /\ JsDate.isoDay d = Some k) ->
  NoDup (JsMap.keys m) ->
  CountryMapsOk (JsMap.set k m byDate).
Proof.
  intros [Hk Hd Hi] Hdate Hm. split.
  - now apply JsMapFacts.NoDup_keys_set.
  - intros k' m' Hin. apply In_set in Hin. destruct Hin as [[-> ->]|Hin]; eauto.
  - intros k' m' Hin. apply In_set in Hin. destruct Hin as [[-> ->]|Hin]; eauto.
Qed.

Lemma processRow_keys (reportDate : Date) (st : FileState) (row : DailyReportRow) :
  NoDup (JsMap.keys (countryStatsMap st)) ->
  NoDup (JsMap.keys (countryStatsMap (processRow reportDate st row))).
Proof.
  intros H. unfold processRow.
  destruct (countryOf row); [|assumption].
  cbn [countryStatsMap]. now apply JsMapFacts.NoDup_keys_set.
Qed.

Lemma processRows_keys (reportDate : Date) (m : JsMap.t CountryAcc.t)
    (rows : list DailyReportRow) :
  NoDup (JsMap.keys m) ->
  NoDup (JsMap.keys (countryStatsMap (processRows reportDate m rows))).
Proof.
  intros H. unfold processRows.
  assert (Hfold : forall st, NoDup (JsMap.keys (countryStatsMap st)) ->
            NoDup (JsMap.keys (countryStatsMap (fold_left (processRow reportDate) rows st)))).
  { induction rows as [|row rows IH]; simpl; intros st Hst; [assumption|].
    apply IH, processRow_keys, Hst. }
  apply Hfold, H.
Qed.

Lemma insertBatches_tables (data : list DailyReport.t) (w : World) :
  dailyGlobalStats (db (insertBatches data w)) = dailyGlobalStats (db w)
  /\ countryStats (db (insertBatches data w)) = countryStats (db w).
Proof.
  unfold insertBatches. generalize (batches data) as bs. intros bs. revert w.
  induction bs as [|b bs IH]; simpl; intros w; [now split|].
  destruct (IH (createManyDailyReport b w)) as [-> ->]. now split.
Qed.

Lemma invariant_start (w : World) :
  dailyGlobalStats (db w) = [] -> countryStats (db w) = [] ->
  RunInvariant {| world := w; totalRecords := 0; globalStatsByDate := [];
                  countryStatsByDate := [] |}.
Proof.
  intros Hg Hc. split; cbn; try assumption; try constructor; try contradiction.
  constructor.
Qed.

Lemma processFile_invariant (fs : FileSystem) (st : RunState) (file : string) :
  RunInvariant st -> RunInvariant (processFile fs st file).
Proof.
  intros [Hgk Hgd Hc Hgt Hct]. unfold processFile.
  destruct (parseDate file) as [reportDate|] eqn:Hdate; [|now split].
  destruct (JsDate.isoDay reportDate) as [dateKey|] eqn:Hkey; [|now split].
  destruct (readCSVFile fs file) as [rows|]; [|now split].
  pose proof (JsDateFacts.parseDate_wellFormed _ _ _ Hdate Hkey) as Hwf.
  cbn [world totalRecords globalStatsByDate countryStatsByDate withWorld].
  set (byDate := if JsMap.has dateKey (countryStatsByDate st) then _ else _).
  assert (Hby : CountryMapsOk byDate).
  { unfold byDate. destruct (JsMap.has dateKey (countryStatsByDate st)); [assumption|].
    apply CountryMapsOk_set; eauto. constructor. }
  split; cbn [world totalRecords globalStatsByDate countryStatsByDate].
  - now apply JsMapFacts.NoDup_keys_set.
  - intros k g Hin. apply In_set in Hin. destruct Hin as [[-> ->]|Hin]; [now split | eauto].
  - apply CountryMapsOk_set; eauto.
    apply processRows_keys.
    destruct (JsMap.get dateKey byDate) as [m|] eqn:E; [|constructor].
    apply JsMapFacts.get_In in E. eapply ok_inner; eauto.
  - rewrite db_say. destruct (insertBatches_tables
      (dataToInsert (processRows reportDate
         match JsMap.get dateKey byDate with Some m => m | None => [] end rows))
      (say (LogProcessing file) (world st))) as [-> _]. assumption.
  - rewrite db_say. destruct (insertBatches_tables
      (dataToInsert (processRows reportDate
         match JsMap.get dateKey byDate with Some m => m | None => [] end rows))
      (say (LogProcessing file) (world st))) as [_ ->]. assumption.
Qed.

Lemma processFiles_invariant (fs : FileSystem) (files : list string) (w : World) :
  dailyGlobalStats (db w) = [] -> countryStats (db w) = [] ->
  RunInvariant (processFiles fs files w).
Proof.
  intros Hg Hc. unfold processFiles.
  assert (Hfold : forall st, RunInvariant st ->
                             RunInvariant (fold_left (processFile fs) files st)).
  { induction files as [|f files IH]; simpl; intros st Hst; [assumption|].
    apply IH, processFile_invariant, Hst. }
  apply Hfold, invariant_start; assumption.
Qed.

Lemma NoDup_map_injective {A B : Type} (f : A -> B) (l : list A) :
  (forall x y, f x = f y -> x = y) -> NoDup l -> NoDup (map f l).
Proof.
  intros Hinj. induction 1 as [|x l Hnotin Hnd IH]; simpl; constructor; [|assumption].
  intros Hin. apply in_map_iff in Hin. destruct Hin as (y & Hy & Hin).
  apply Hinj in Hy. now subst.
Qed.

Lemma global_dates_distinct (st : RunState) :
  RunInvariant st -> NoDup (map GlobalStats.date (JsMap.values (globalStatsByDate st))).
Proof.
  intros [Hk Hd _ _ _]. unfold JsMap.values. rewrite map_map.
  apply (NoDup_map_through _ JsDate.isoDay).
  rewrite (map_ext_in _ (fun e => Some (fst e))).
  - rewrite <- (map_map fst Some). apply NoDup_map_injective; [now intros x y [= ->] | exact Hk].
  - intros [k g] Hin. cbn. now apply Hd.
Qed.

Lemma In_countryRows (row : CountryStats.t) (byDate : JsMap.t (JsMap.t CountryAcc.t)) :
  In row (countryRows byDate) <->
  exists k m c acc,
    In (k, m) byDate /\ In (c, acc) m /\ row = countryRow (JsDate.parse k) c acc.
Proof.
  unfold countryRows. rewrite in_flat_map. split.
  - intros ([k m] & Hkm & Hin). apply in_map_iff in Hin.
    destruct Hin as ([c acc] & <- & Hin). now exists k, m, c, acc.
  - intros (k & m & c & acc & Hkm & Hin & ->). exists (k, m). split; [assumption|].
    apply in_map_iff. now exists (c, acc).
Qed.

Lemma country_keys_distinct (byDate : JsMap.t (JsMap.t CountryAcc.t)) :
  CountryMapsOk byDate -> NoDup (map countryKey (countryRows byDate)).
Proof.
  induction byDate as [|[k m] rest IH]; intros [Hk Hd Hi]; [constructor|].
  change (countryRows ((k, m) :: rest))
    with (map (fun '(c, acc) => countryRow (JsDate.parse k) c acc) m ++ countryRows rest).
  rewrite map_app. cbn [JsMap.keys map fst] in Hk. inversion Hk as [|? ? Hnotin Hk']; subst.
  apply NoDup_app.
  - rewrite map_map. apply (NoDup_map_through _ fst).
    rewrite (map_ext _ fst) by (now intros [c acc]).
    apply (Hi k m). now left.
  - apply IH. split; [assumption| |]; intros k' m' Hin; [eapply Hd | eapply Hi]; right; eassumption.
  - intros key Hin1 Hin2.
    apply in_map_iff in Hin1. destruct Hin1 as (r1 & <- & Hin1).
    apply in_map_iff in Hin1. destruct Hin1 as ([c acc] & <- & Hin1).
    apply in_map_iff in Hin2. destruct Hin2 as (r2 & Heq & Hin2).
    apply In_countryRows in Hin2. destruct Hin2 as (k' & m' & c' & acc' & Hkm & _ & ->).
    injection Heq as _ Hparse.
    destruct (Hd k m (or_introl eq_refl)) as (d & Hwf & Hiso).
    destruct (Hd k' m' (or_intror Hkm)) as (d' & Hwf' & Hiso').
    rewrite (JsDateFacts.parse_isoDay d k Hwf Hiso) in Hparse.
    rewrite (JsDateFacts.parse_isoDay d' k' Hwf' Hiso') in Hparse. subst d'.
    assert (k' = k) by congruence. subst k'.
    apply Hnotin. change k with (fst (k, m')). now apply in_map.
Qed.

(** From a state of the loop over the files both statistics tables are
    written in full, in the order of the maps. *)
Lemma insertStatistics_ok (st : RunState) :
  RunInvariant st ->
  exists w,
    insertStatistics st = inr w
    /\ dailyReport (db w) = dailyReport (db (world st))
    /\ dailyGlobalStats (db w) = JsMap.values (globalStatsByDate st)
    /\ countryStats (db w) = countryRows (countryStatsByDate st)
    /\ console w = console (world st).
Proof.
  intros Hinv. unfold insertStatistics.
  destruct (forEach_createGlobalStats_ok (JsMap.values (globalStatsByDate st)) (world st))
    as (w1 & -> & Hg & Hd & Hc & Hl).
  { rewrite (inv_global_table _ Hinv). now apply global_dates_distinct. }
  destruct (forEach_createCountryStats_ok (countryRows (countryStatsByDate st)) w1)
    as (w2 & -> & Hc2 & Hd2 & Hg2 & Hl2).
  { rewrite Hc, (inv_country_table _ Hinv). apply country_keys_distinct, (inv_country _ Hinv). }
  exists w2. split; [reflexivity|].
  rewrite Hd2, Hd, Hg2, Hg, Hc2, Hc, Hl2, Hl.
  now rewrite (inv_global_table _ Hinv), (inv_country_table _ Hinv).
Qed.

(** A run over an existing directory always succeeds, and its tables are
    the detail rows inserted file by file and the rows of the two maps. *)
Lemma importDailyReports_resolves (fs : FileSystem) (w : World) :
  dirExists fs = true ->
  let st := processFiles fs (listCsvFiles (readdir fs))
              (wipe (say (LogFilesFound (List.length (listCsvFiles (readdir fs)))) w)) in
  fst (importDailyReports fs w) = Resolved
  /\ dailyReport (db (snd (importDailyReports fs w))) = dailyReport (db (world st))
  /\ dailyGlobalStats (db (snd (importDailyReports fs w))) = JsMap.values (globalStatsByDate st)
  /\ countryStats (db (snd (importDailyReports fs w))) = countryRows (countryStatsByDate st)
  /\ console (snd (importDailyReports fs w)) = console (world st) ++ [summary st].
Proof.
  intros Hdir st. unfold importDailyReports. rewrite Hdir. cbn [negb]. cbv zeta. fold st.
  destruct (insertStatistics_ok st) as (w' & -> & Hd & Hg & Hc & Hl).
  { apply processFiles_invariant; reflexivity. }
  cbn. rewrite Hl. now repeat split.
Qed.

(** ** The order of the files *)

Module SortFacts.

Lemma leb_trans (a b c : string) :
  String.leb a b = true -> String.leb b c = true -> String.leb a c = true.
Proof.
  unfold String.leb. revert b c.
  induction a as [|x a IH]; intros [|y b] [|z c]; simpl; try congruence.
  unfold Ascii.compare.
  destruct (N.compare_spec (N_of_ascii x) (N_of_ascii y)) as [Exy|Lxy|Gxy];
    destruct (N.compare_spec (N_of_ascii y) (N_of_ascii z)) as [Eyz|Lyz|Gyz];
    destruct (N.compare_spec (N_of_ascii x) (N_of_ascii z)) as [Exz|Lxz|Gxz];
    try congruence; try lia.
  apply IH.
Qed.

Lemma leb_flip (a b : string) : String.leb a b = false -> String.leb b a = true.
Proof.
  intros H. destruct (String.leb_total a b) as [E|E]; congruence.
Qed.

Lemma insertSorted_perm (x : string) (l : list string) :
  Permutation (insertSorted x l) (x :: l).
Proof.
  induction l as [|y l IH]; simpl; [reflexivity|].
  destruct (String.leb x y); [reflexivity|].
  rewrite IH. apply perm_swap.
Qed.

Lemma sort_perm (l : list string) : Permutation (sort l) l.
Proof.
  induction l as [|x l IH]; simpl; [reflexivity|].
  rewrite insertSorted_perm. now constructor.
Qed.

Lemma insertSorted_sorted (x : string) (l : list string) :
  StronglySorted nameLe l -> StronglySorted nameLe (insertSorted x l).
Proof.
  induction 1 as [|y l Hl IH Hy]; simpl; [repeat constructor|].
  destruct (String.leb x y) eqn:E.
  - constructor; [now constructor|]. constructor; [assumption|].
    eapply Forall_impl; [|exact Hy]. intros z Hz. exact (leb_trans _ _ _ E Hz).
  - constructor; [assumption|].
    eapply Permutation_Forall; [symmetry; apply insertSorted_perm|].
    constructor; [now apply leb_flip | assumption].
Qed.

Lemma sort_sorted (l : list string) : StronglySorted nameLe (sort l).
Proof.
  induction l as [|x l IH]; simpl; [constructor | now apply insertSorted_sorted].
Qed.

(** A list has one sorted arrangement. *)
Lemma sorted_unique (l l' : list string) :
  StronglySorted nameLe l -> StronglySorted nameLe l' -> Permutation l l' -> l = l'.
Proof.
  intros Hl. revert l'. induction Hl as [|x l Hl IH Hx]; intros l' Hl' Hp.
  - apply Permutation_nil in Hp. now subst.
  - destruct Hl' as [|y l' Hl' Hy].
    + symmetry in Hp. apply Permutation_nil in Hp. discriminate.
    + assert (x = y) as <-.
      { assert (Hxin : In x (y :: l')) by (eapply Permutation_in; [exact Hp | now left]).
        assert (Hyin : In y (x :: l)).
        { eapply Permutation_in; [symmetry; exact Hp | now left]. }
        destruct Hxin as [->|Hxin]; [reflexivity|].
        destruct Hyin as [->|Hyin]; [reflexivity|].
        rewrite Forall_forall in Hx, Hy.
        apply String.leb_antisym; [apply Hx | apply Hy]; assumption. }
      f_equal. apply IH; [assumption|]. eapply Permutation_cons_inv, Hp.
Qed.

Lemma sort_of_permutation (l l' : list string) : Permutation l l' -> sort l = sort l'.
Proof.
  intros Hp. apply sorted_unique; try apply sort_sorted.
  rewrite !sort_perm. exact Hp.
Qed.

Lemma filter_perm {A : Type} (p : A -> bool) (l l' : list A) :
  Permutation l l' -> Permutation (filter p l) (filter p l').
Proof.
  induction 1 as [|x l l' Hp IH|x y l|l l' l'' H1 IH1 H2 IH2]; simpl.
  - constructor.
  - destruct (p x); [now constructor | assumption].
  - destruct (p x), (p y); try reflexivity. apply perm_swap.
  - etransitivity; eassumption.
Qed.



Lemma listCsvFiles_of_permutation (entries entries' : list string) :
  Permutation entries entries' -> listCsvFiles entries = listCsvFiles entries'.
Proof.
  intros Hp. apply sort_of_permutation, filter_perm, Hp.
Qed.



End SortFacts.

(** ** A file without a date in its name *)











(** ** The per-country accumulators *)

Lemma pushPositive_app (x : Num.float) (l : list Num.float) :
  pushPositive x l = l ++ filter Num.gt0 [x].
Proof.
  unfold pushPositive. simpl. destruct (Num.gt0 x); [reflexivity | now rewrite app_nil_r].
Qed.

Lemma positiveSamples_cons (sample : DailyReportRow -> Num.float) (row : DailyReportRow)
    (rows : list DailyReportRow) :
  positiveSamples sample (row :: rows) =
  filter Num.gt0 [sample row] ++ positiveSamples sample rows.
Proof.
  unfold positiveSamples. simpl. now destruct (Num.gt0 (sample row)).
Qed.

(** What a run of records adds to the entry of a country. *)
Lemma fold_addToCountry (rows : list DailyReportRow) (acc : CountryAcc.t) :
  let acc' := fold_left addToCountry rows acc in
  CountryAcc.confirmed acc' = (CountryAcc.confirmed acc + sumOf confirmedOf rows)%Z
  /\ CountryAcc.deaths acc' = (CountryAcc.deaths acc + sumOf deathsOf rows)%Z
  /\ CountryAcc.recovered acc' = (CountryAcc.recovered acc + sumOf recoveredOf rows)%Z
  /\ CountryAcc.active acc' = (CountryAcc.active acc + sumOf activeOf rows)%Z
  /\ CountryAcc.incidentRates acc' =
       CountryAcc.incidentRates acc ++ positiveSamples incidentRateOf rows
  /\ CountryAcc.fatalityRatios acc' =
       CountryAcc.fatalityRatios acc ++ positiveSamples fatalityRatioOf rows.
Proof.
  revert acc. induction rows as [|row rows IH]; intros acc; cbn [fold_left].
  - cbn. rewrite !app_nil_r, !Z.add_0_r. now repeat split.
  - destruct (IH (addToCountry acc row)) as (H1 & H2 & H3 & H4 & H5 & H6).
    cbv zeta. rewrite H1, H2, H3, H4, H5, H6, !positiveSamples_cons.
    change (sumOf ?f (row :: rows)) with (f row + sumOf f rows)%Z.
    cbn [addToCountry CountryAcc.confirmed CountryAcc.deaths
      CountryAcc.recovered CountryAcc.active CountryAcc.incidentRates
      CountryAcc.fatalityRatios].
    rewrite !pushPositive_app, <- !app_assoc.
    repeat split; try lia; reflexivity.
Qed.

Lemma processRow_entry (reportDate : Date) (st : FileState) (row : DailyReportRow)
    (country : string) :
  countryEntry country (countryStatsMap (processRow reportDate st row)) =
  if countryIs country row
  then addToCountry (countryEntry country (countryStatsMap st)) row
  else countryEntry country (countryStatsMap st).
Proof.
  unfold processRow, countryIs. destruct (countryOf row) as [c|]; [|reflexivity].
  cbn [countryStatsMap]. unfold countryEntry at 1.
  destruct (String.eqb_spec c country) as [->|Hne].
  - now rewrite JsMapFacts.get_set_same.
  - now rewrite JsMapFacts.get_set_other.
Qed.

Lemma processRows_entry (reportDate : Date) (m : JsMap.t CountryAcc.t)
    (rows : list DailyReportRow) (country : string) :
  countryEntry country (countryStatsMap (processRows reportDate m rows)) =
  fold_left addToCountry (filter (countryIs country) rows) (countryEntry country m).
Proof.
  unfold processRows.
  assert (Hfold : forall st,
            countryEntry country (countryStatsMap (fold_left (processRow reportDate) rows st)) =
            fold_left addToCountry (filter (countryIs country) rows)
              (countryEntry country (countryStatsMap st))).
  { induction rows as [|row rows IH]; intros st; cbn [fold_left filter]; [reflexivity|].
    rewrite IH, processRow_entry. now destruct (countryIs country row). }
  apply Hfold.
Qed.

Lemma processFile_skipped (fs : FileSystem) (st : RunState) (file : string) :
  fileRecords fs file = None ->
  globalStatsByDate (processFile fs st file) = globalStatsByDate st
  /\ countryStatsByDate (processFile fs st file) = countryStatsByDate st
  /\ db (world (processFile fs st file)) = db (world st).
Proof.
  unfold fileRecords, processFile.
  destruct (parseDate file) as [reportDate|]; [|now repeat split].
  destruct (JsDate.isoDay reportDate) as [dateKey|]; [|now repeat split].
  destruct (readCSVFile fs file) as [rows|]; [discriminate | now repeat split].
Qed.

Lemma processFile_entry (fs : FileSystem) (st : RunState) (file : string)
    (dateKey country : string) :
  entryAt dateKey country (countryStatsByDate (processFile fs st file)) =
  fold_left addToCountry (recordsAt fs [file] dateKey country)
    (entryAt dateKey country (countryStatsByDate st)).
Proof.
  unfold recordsAt. cbn [flat_map]. rewrite app_nil_r.
  destruct (fileRecords fs file) as [[[k reportDate] rows]|] eqn:E.
  - unfold fileRecords in E. unfold processFile.
    destruct (parseDate file) as [d|]; [|discriminate].
    destruct (JsDate.isoDay d) as [k'|]; [|discriminate].
    destruct (readCSVFile fs file) as [rows'|]; [|discriminate].
    injection E as -> -> ->.
    cbn [countryStatsByDate withWorld].
    set (byDate := if JsMap.has k (countryStatsByDate st) then _ else _).
    assert (Hget : forall key,
              match JsMap.get key byDate with Some m => m | None => [] end =
              match JsMap.get key (countryStatsByDate st) with Some m => m | None => [] end).
    { intros key. unfold byDate, JsMap.has.
      destruct (JsMap.get k (countryStatsByDate st)) eqn:Ek; [reflexivity|].
      destruct (String.eqb_spec k key) as [<-|Hne].
      - now rewrite JsMapFacts.get_set_same, Ek.
      - now rewrite JsMapFacts.get_set_other. }
    unfold entryAt at 1.
    destruct (String.eqb_spec k dateKey) as [<-|Hne].
    + rewrite JsMapFacts.get_set_same, processRows_entry, Hget. reflexivity.
    + rewrite JsMapFacts.get_set_other, Hget by assumption. reflexivity.
  - destruct (processFile_skipped fs st file E) as (_ & -> & _). reflexivity.
Qed.

Lemma recordsAt_app (fs : FileSystem) (files files' : list string) (dateKey country : string) :
  recordsAt fs (files ++ files') dateKey country =
  recordsAt fs files dateKey country ++ recordsAt fs files' dateKey country.
Proof. unfold recordsAt. apply flat_map_app. Qed.

Lemma fold_processFile_entry (fs : FileSystem) (files : list string) (st : RunState)
    (dateKey country : string) :
  entryAt dateKey country (countryStatsByDate (fold_left (processFile fs) files st)) =
  fold_left addToCountry (recordsAt fs files dateKey country)
    (entryAt dateKey country (countryStatsByDate st)).
Proof.
  revert st. induction files as [|f files IH]; intros st; [reflexivity|].
  cbn [fold_left]. rewrite IH, processFile_entry.
  change (f :: files) with ([f] ++ files).
  now rewrite recordsAt_app, fold_left_app.
Qed.

Lemma fileRecords_key (fs : FileSystem) (file : string) (k : string) (d : Date)
    (rows : list DailyReportRow) :
  fileRecords fs file = Some (k, d, rows) ->
  JsDate.wellFormed d /\ JsDate.isoDay d = Some k.
Proof.
  unfold fileRecords.
  destruct (parseDate file) as [reportDate|] eqn:Hdate; [|discriminate].
  destruct (JsDate.isoDay reportDate) as [dateKey|] eqn:Hkey; [|discriminate].
  destruct (readCSVFile fs file); [|discriminate].
  intros [= <- <- <-]. split; [|assumption].
  eapply JsDateFacts.parseDate_wellFormed; eassumption.
Qed.

(** The records under a day key are the records of its date. *)
Lemma recordsAt_recordsOf (fs : FileSystem) (k country : string) (d : Date) :
  JsDate.wellFormed d -> JsDate.isoDay d = Some k ->
  recordsAt fs (listCsvFiles (readdir fs)) k country = recordsOf fs country d.
Proof.
  intros Hwf Hk. unfold recordsAt, recordsOf.
  apply flat_map_ext. intros file.
  destruct (fileRecords fs file) as [[[k' d'] rows]|] eqn:E; [|reflexivity].
  destruct (fileRecords_key _ _ _ _ _ E) as (Hwf' & Hk').
  destruct (String.eqb_spec k' k) as [->|Hne].
  - rewrite (JsDateFacts.isoDay_inj d' d k Hwf' Hwf Hk' Hk).
    now rewrite (proj2 (JsDateFacts.eqb_eq d d) eq_refl).
  - destruct (JsDate.eqb d' d) eqn:Ed; [|reflexivity].
    apply JsDateFacts.eqb_eq in Ed. subst d'. congruence.
Qed.

(** Each row of the country table comes from an entry of the maps, and the
    entry holds what the records of its country and date added up to. *)
Lemma country_row_of_records (fs : FileSystem) (w : World) (row : CountryStats.t) :
  dirExists fs = true ->
  In row (countryStats (db (snd (main fs w)))) ->
  exists acc,
    row = countryRow (CountryStats.date row) (CountryStats.countryRegion row) acc
    /\ acc = fold_left addToCountry
               (recordsOf fs (CountryStats.countryRegion row) (CountryStats.date row))
               CountryAcc.empty.
Proof.
  intros Hdir Hin.
  rewrite (proj2 (main_unfold fs w)) in Hin.
  destruct (importDailyReports_resolves fs w Hdir) as (_ & _ & _ & Hrows & _).
  rewrite Hrows in Hin. clear Hrows.
  set (files := listCsvFiles (readdir fs)) in *.
  set (w0 := wipe _) in Hin.
  pose proof (processFiles_invariant fs files w0 eq_refl eq_refl) as Hinv.
  destruct (inv_country _ Hinv) as [Hkeys Hdate Hinner].
  apply In_countryRows in Hin. destruct Hin as (k & m & c & acc & Hkm & Hc & ->).
  destruct (Hdate k m Hkm) as (d & Hwf & Hk).
  rewrite (JsDateFacts.parse_isoDay d k Hwf Hk).
  exists acc. split; [reflexivity|]. cbn [countryRow CountryStats.date CountryStats.countryRegion].
  rewrite <- (recordsAt_recordsOf fs k c d Hwf Hk). fold files.
  pose proof (fold_processFile_entry fs files
                {| world := w0; totalRecords := 0; globalStatsByDate := [];
                   countryStatsByDate := [] |} k c) as Hentry.
  fold (processFiles fs files w0) in Hentry.
  unfold entryAt in Hentry at 1.
  rewrite (JsMapFacts.In_get k m _ Hkeys Hkm) in Hentry.
  unfold countryEntry in Hentry at 1.
  rewrite (JsMapFacts.In_get c acc m (Hinner k m Hkm) Hc) in Hentry.
  exact Hentry.
Qed.

(** C6.  In every row the run writes to the country table, the incidence
    rate is the mean of the strictly positive incidence rates of the records
    of that country and report date, and the case-fatality ratio likewise;
    a field with no strictly positive sample is absent. *)
Theorem country_rates_are_means_of_positive_samples (fs : FileSystem) (w : World)
    (row : CountryStats.t) :
  dirExists fs = true ->
  In row (countryStats (db (snd (main fs w)))) ->
  let records := recordsOf fs (CountryStats.countryRegion row) (CountryStats.date row) in
  CountryStats.incidentRate row = mean (positiveSamples incidentRateOf records)
  /\ CountryStats.caseFatalityRatio row = mean (positiveSamples fatalityRatioOf records)
  /\ (positiveSamples incidentRateOf records = [] -> CountryStats.incidentRate row = None)
  /\ (positiveSamples fatalityRatioOf records = [] -> CountryStats.caseFatalityRatio row = None).
Proof.
  intros Hdir Hin records.
  destruct (country_row_of_records fs w row Hdir Hin) as (acc & Hrow & Hacc).
  fold records in Hacc.
  destruct (fold_addToCountry records CountryAcc.empty) as (_ & _ & _ & _ & Hrates & Hratios).
  cbv zeta in Hrates, Hratios. rewrite <- Hacc in Hrates, Hratios. cbn in Hrates, Hratios.
  assert (Hi : CountryStats.incidentRate row = mean (positiveSamples incidentRateOf records)).
  { rewrite Hrow. cbn. now rewrite Hrates. }
  assert (Hf : CountryStats.caseFatalityRatio row = mean (positiveSamples fatalityRatioOf records)).
  { rewrite Hrow. cbn. now rewrite Hratios. }
  repeat split; try assumption.
  - intros E. now rewrite Hi, E.
  - intros E. now rewrite Hf, E.
Qed.

(** ** Aggregation and the unique index *)

Ltac counts_eq :=
  repeat match goal with |- (_, _) = (_, _) => f_equal end; lia.

Lemma plus_assoc (a b c : Counts) : plus (plus a b) c = plus a (plus b c).
Proof.
  destruct a as [[[? ?] ?] ?], b as [[[? ?] ?] ?], c as [[[? ?] ?] ?]. cbn.
  counts_eq.
Qed.

Lemma plus_comm (a b : Counts) : plus a b = plus b a.
Proof.
  destruct a as [[[? ?] ?] ?], b as [[[? ?] ?] ?]. cbn. counts_eq.
Qed.

Lemma plus_zero_r (a : Counts) : plus a (0, 0, 0, 0)%Z = a.
Proof. destruct a as [[[? ?] ?] ?]. cbn. counts_eq. Qed.

Lemma totalOf_cons (row : DailyReportRow) (l : list DailyReportRow) :
  totalOf (row :: l) = plus (countsOf row) (totalOf l).
Proof. reflexivity. Qed.

Lemma totalOf_app (l l' : list DailyReportRow) :
  totalOf (l ++ l') = plus (totalOf l) (totalOf l').
Proof.
  induction l as [|row l IH]; cbn [app totalOf fold_right].
  - fold (totalOf l'). rewrite plus_comm. now rewrite plus_zero_r.
  - fold (totalOf (l ++ l')) (totalOf l). now rewrite IH, plus_assoc.
Qed.

(** The running totals of a file are the totals of its counted records. *)
Lemma processRows_daily (reportDate : Date) (m : JsMap.t CountryAcc.t)
    (rows : list DailyReportRow) :
  dailyCounts (daily (processRows reportDate m rows)) = totalOf (filter counted rows).
Proof.
  unfold processRows.
  assert (Hfold : forall st,
            dailyCounts (daily (fold_left (processRow reportDate) rows st)) =
            plus (dailyCounts (daily st)) (totalOf (filter counted rows))).
  { induction rows as [|row rows IH]; intros st; cbn [fold_left filter].
    - now rewrite plus_zero_r.
    - rewrite IH. unfold processRow, counted. destruct (countryOf row); [|reflexivity].
      cbn [daily totalOf fold_right]. fold (totalOf (filter counted rows)).
      rewrite <- plus_assoc. f_equal. }
  rewrite Hfold. cbn [daily]. rewrite plus_comm. apply plus_zero_r.
Qed.

(** The entry of a country after a file: what it held, and the totals of
    the records of the country. *)
Lemma processRows_entry_counts (reportDate : Date) (m : JsMap.t CountryAcc.t)
    (rows : list DailyReportRow) (country : string) :
  entryCounts (countryEntry country (countryStatsMap (processRows reportDate m rows))) =
  plus (entryCounts (countryEntry country m)) (totalOf (filter (countryIs country) rows)).
Proof.
  rewrite processRows_entry. generalize (countryEntry country m) as acc.
  induction (filter (countryIs country) rows) as [|row l IH]; intros acc; cbn [fold_left].
  - cbn [totalOf fold_right]. now rewrite plus_zero_r.
  - rewrite IH. cbn [totalOf fold_right]. fold (totalOf l).
    rewrite <- plus_assoc. f_equal.
Qed.

Lemma conflicts_sym (a b : DailyReport.t) : Db.conflicts a b = Db.conflicts b a.
Proof.
  unfold Db.conflicts, Db.sameNonNull.
  rewrite (String.eqb_sym (DailyReport.countryRegion a)).
  replace (JsDate.eqb (DailyReport.reportDate a) (DailyReport.reportDate b))
    with (JsDate.eqb (DailyReport.reportDate b) (DailyReport.reportDate a)).
  - destruct (DailyReport.provinceState a), (DailyReport.provinceState b),
             (DailyReport.admin2 a), (DailyReport.admin2 b);
      rewrite ?(String.eqb_sym s), ?(String.eqb_sym s1); reflexivity.
  - destruct (JsDate.eqb (DailyReport.reportDate a) (DailyReport.reportDate b)) eqn:E.
    + apply JsDateFacts.eqb_eq in E. rewrite E. now apply JsDateFacts.eqb_eq.
    + destruct (JsDate.eqb (DailyReport.reportDate b) (DailyReport.reportDate a)) eqn:E';
        [|reflexivity].
      apply JsDateFacts.eqb_eq in E'. rewrite E' in E.
      now rewrite (proj2 (JsDateFacts.eqb_eq _ _) eq_refl) in E.
Qed.

Lemma sameNonNull_eq (a b : option string) :
  Db.sameNonNull a b = true <-> exists x, a = Some x /\ b = Some x.
Proof.
  unfold Db.sameNonNull. destruct a as [x|], b as [y|]; split;
    try discriminate; try (intros (z & H1 & H2); discriminate).
  - rewrite String.eqb_eq. intros ->. now exists y.
  - intros (z & [= ->] & [= ->]). apply String.eqb_refl.
Qed.

Lemma conflicts_iff (a b : DailyReport.t) :
  Db.conflicts a b = true <->
  DailyReport.countryRegion a = DailyReport.countryRegion b
  /\ (exists p, DailyReport.provinceState a = Some p /\ DailyReport.provinceState b = Some p)
  /\ (exists s, DailyReport.admin2 a = Some s /\ DailyReport.admin2 b = Some s)
  /\ DailyReport.reportDate a = DailyReport.reportDate b.
Proof.
  unfold Db.conflicts.
  rewrite !andb_true_iff, String.eqb_eq, !sameNonNull_eq, JsDateFacts.eqb_eq. tauto.
Qed.

(** Two rows in conflict with a third are in conflict with each other. *)
Lemma conflicts_trans (x a b : DailyReport.t) :
  Db.conflicts x a = true -> Db.conflicts x b = true -> Db.conflicts a b = true.
Proof.
  rewrite !conflicts_iff.
  intros (Hc & (p & Hp & Hp') & (s & Hs & Hs') & Hd)
         (Hc' & (q & Hq & Hq') & (t & Ht & Ht') & Hd').
  rewrite Hp in Hq. rewrite Hs in Ht. injection Hq as <-. injection Ht as <-.
  repeat split; try congruence; eauto.
Qed.

Lemma UniqueIndex_insertSkip (table : list DailyReport.t) (row : DailyReport.t) :
  UniqueIndex table -> UniqueIndex (Db.insertSkip table row).
Proof.
  unfold Db.insertSkip. intros H.
  destruct (existsb (Db.conflicts row) table) eqn:E; [assumption|].
  assert (Hrow : forall a, In a table -> Db.conflicts a row = false).
  { intros a Hin. rewrite conflicts_sym.
    destruct (Db.conflicts row a) eqn:Ea; [|reflexivity].
    assert (existsb (Db.conflicts row) table = true) by (apply existsb_exists; eauto).
    congruence. }
  clear E. induction H as [|a table Ha Htable IH]; simpl.
  - repeat constructor.
  - constructor.
    + apply Forall_app. split; [assumption|]. constructor; [|constructor].
      apply Hrow. now left.
    + apply IH. intros b Hb. apply Hrow. now right.
Qed.

Lemma UniqueIndex_createMany (batch table : list DailyReport.t) :
  UniqueIndex table -> UniqueIndex (Db.createMany batch table).
Proof.
  unfold Db.createMany. revert table.
  induction batch as [|row batch IH]; simpl; intros table H; [assumption|].
  apply IH, UniqueIndex_insertSkip, H.
Qed.

Lemma UniqueIndex_insertBatches (data : list DailyReport.t) (w : World) :
  UniqueIndex (dailyReport (db w)) -> UniqueIndex (dailyReport (db (insertBatches data w))).
Proof.
  unfold insertBatches. generalize (batches data) as bs. intros bs. revert w.
  induction bs as [|b bs IH]; simpl; intros w H; [assumption|].
  apply IH. cbn. now apply UniqueIndex_createMany.
Qed.

Lemma filter_none {A : Type} (p : A -> bool) (l : list A) :
  (forall x, In x l -> p x = false) -> filter p l = [].
Proof.
  induction l as [|x l IH]; simpl; intros H; [reflexivity|].
  rewrite (H x (or_introl eq_refl)). apply IH. intros y Hy. apply H. now right.
Qed.

(** Under the unique index at most one row conflicts with a given row. *)
Lemma UniqueIndex_count (table : list DailyReport.t) (row : DailyReport.t) :
  UniqueIndex table -> countRows (Db.conflicts row) table <= 1.
Proof.
  unfold countRows. induction 1 as [|a table Ha Htable IH]; simpl; [lia|].
  destruct (Db.conflicts row a) eqn:E; [|assumption].
  rewrite filter_none; [simpl; lia|].
  intros b Hb. rewrite Forall_forall in Ha.
  destruct (Db.conflicts row b) eqn:Eb; [|reflexivity].
  specialize (Ha b Hb). rewrite (conflicts_trans _ _ _ E Eb) in Ha. discriminate.
Qed.

(** The detail rows of a file: one for each counted record, in order. *)
Lemma processRows_details (reportDate : Date) (m : JsMap.t CountryAcc.t)
    (rows : list DailyReportRow) :
  dataToInsert (processRows reportDate m rows) =
  flat_map (fun row => match countryOf row with
                       | Some c => [detailRow reportDate c row]
                       | None => []
                       end) rows.
Proof.
  unfold processRows.
  assert (Hfold : forall st,
            dataToInsert (fold_left (processRow reportDate) rows st) =
            dataToInsert st ++
            flat_map (fun row => match countryOf row with
                                 | Some c => [detailRow reportDate c row]
                                 | None => []
                                 end) rows).
  { induction rows as [|row rows IH]; intros st; cbn [fold_left flat_map].
    - now rewrite app_nil_r.
    - rewrite IH. unfold processRow. destruct (countryOf row); [|reflexivity].
      cbn [dataToInsert]. now rewrite <- app_assoc. }
  apply Hfold.
Qed.

Lemma sameKey_conflicts (a b : DailyReport.t) :
  DailyReport.provinceState a <> None -> DailyReport.admin2 a <> None ->
  sameKey a b = Db.conflicts a b.
Proof.
  unfold sameKey, Db.conflicts, sameOptional, Db.sameNonNull.
  destruct (DailyReport.provinceState a), (DailyReport.admin2 a); congruence.
Qed.

(** The maps after a file do not depend on what the tables hold, hence not
    on which rows the database skips. *)
Lemma aggregation_ignores_database (fs : FileSystem) (st st' : RunState) (file : string) :
  globalStatsByDate st = globalStatsByDate st' ->
  countryStatsByDate st = countryStatsByDate st' ->
  globalStatsByDate (processFile fs st file) = globalStatsByDate (processFile fs st' file)
  /\ countryStatsByDate (processFile fs st file) = countryStatsByDate (processFile fs st' file).
Proof.
  intros Hg Hc. unfold processFile.
  destruct (parseDate file) as [reportDate|]; [|now split].
  destruct (JsDate.isoDay reportDate) as [dateKey|]; [|now split].
  destruct (readCSVFile fs file) as [rows|]; [|now split].
  cbn [globalStatsByDate countryStatsByDate withWorld]. now rewrite Hg, Hc.
Qed.

(** C3, as the code has it.  Two counted records of one file with the same
    country, province, sub-region and report date both enter the running
    totals of the file and the entry of their country, and both are handed
    to the database; when province and sub-region are present the unique
    index lets at most one row with that key stay in the table.  The maps
    are computed without regard to the tables. *)
Theorem aggregation_counts_duplicates (reportDate : Date) (m : JsMap.t CountryAcc.t)
    (before between after : list DailyReportRow) (r1 r2 : DailyReportRow)
    (country : string) (w : World) :
  countryOf r1 = Some country ->
  countryOf r2 = Some country ->
  sameKey (detailRow reportDate country r1) (detailRow reportDate country r2) = true ->
  let rows := before ++ r1 :: between ++ r2 :: after in
  let others := before ++ between ++ after in
  let result := processRows reportDate m rows in
  let d1 := detailRow reportDate country r1 in
  let d2 := detailRow reportDate country r2 in
  dailyCounts (daily result) =
    plus (dailyCounts (daily (processRows reportDate m others)))
         (plus (countsOf r1) (countsOf r2))
  /\ entryCounts (countryEntry country (countryStatsMap result)) =
       plus (entryCounts (countryEntry country
                            (countryStatsMap (processRows reportDate m others))))
            (plus (countsOf r1) (countsOf r2))
  /\ In d1 (dataToInsert result)
  /\ In d2 (dataToInsert result)
  /\ (DailyReport.provinceState d1 <> None ->
      DailyReport.admin2 d1 <> None ->
      UniqueIndex (dailyReport (db w)) ->
      countRows (sameKey d1) (dailyReport (db (insertBatches (dataToInsert result) w))) <= 1)
  /\ (forall fs st st' file,
         globalStatsByDate st = globalStatsByDate st' ->
         countryStatsByDate st = countryStatsByDate st' ->
         globalStatsByDate (processFile fs st file) = globalStatsByDate (processFile fs st' file)
         /\ countryStatsByDate (processFile fs st file)
            = countryStatsByDate (processFile fs st' file)).
Proof.
  intros H1 H2 Hkey rows others result d1 d2.
  assert (Hc1 : counted r1 = true) by (unfold counted; now rewrite H1).
  assert (Hc2 : counted r2 = true) by (unfold counted; now rewrite H2).
  assert (Hi1 : countryIs country r1 = true)
    by (unfold countryIs; rewrite H1; apply String.eqb_refl).
  assert (Hi2 : countryIs country r2 = true)
    by (unfold countryIs; rewrite H2; apply String.eqb_refl).
  assert (Htotal : forall p, p r1 = true -> p r2 = true ->
            totalOf (filter p rows) =
            plus (totalOf (filter p others)) (plus (countsOf r1) (countsOf r2))).
  { intros p Hp1 Hp2. unfold rows, others.
    rewrite !filter_app. cbn [filter]. rewrite Hp1, filter_app. cbn [filter]. rewrite Hp2.
    rewrite !totalOf_app, !totalOf_cons, !totalOf_app, !totalOf_cons.
    generalize (totalOf (filter p before)) (totalOf (filter p between))
               (totalOf (filter p after)) (countsOf r1) (countsOf r2).
    intros [[[? ?] ?] ?] [[[? ?] ?] ?] [[[? ?] ?] ?] [[[? ?] ?] ?] [[[? ?] ?] ?].
    cbn. counts_eq. }
  split; [|split; [|split; [|split; [|split]]]].
  - unfold result. rewrite !processRows_daily. now apply Htotal.
  - unfold result. rewrite !processRows_entry_counts, plus_assoc. f_equal. now apply Htotal.
  - unfold result. rewrite processRows_details. apply in_flat_map.
    exists r1. split; [unfold rows; rewrite in_app_iff; right; now left|].
    rewrite H1. now left.
  - unfold result. rewrite processRows_details. apply in_flat_map.
    exists r2. split.
    + unfold rows. rewrite in_app_iff. right. right. rewrite in_app_iff. right. now left.
    + rewrite H2. now left.
  - intros Hp Ha Hindex. unfold countRows.
    rewrite (filter_ext _ _ (fun x => sameKey_conflicts d1 x Hp Ha)).
    apply UniqueIndex_count, UniqueIndex_insertBatches, Hindex.
  - intros fs st st' file. apply aggregation_ignores_database.
Qed.

Lemma aggregation_counts_duplicates_witness :
  let r1 := Sample.county "Abbeville" "South Carolina" "US" "4" in
  let r2 := Sample.county "Abbeville" "South Carolina" "US" "6" in
  let result := processRows (UTCDate 2020 4 1) [] [r1; r2] in
  countryOf r1 = Some "US"
  /\ countryOf r2 = Some "US"
  /\ sameKey (detailRow (UTCDate 2020 4 1) "US" r1) (detailRow (UTCDate 2020 4 1) "US" r2) = true
  /\ dailyCounts (daily result) = (10, 0, 0, 10)%Z
  /\ entryCounts (countryEntry "US" (countryStatsMap result)) = (10, 0, 0, 10)%Z
  /\ UniqueIndex (dailyReport (db Sample.freshWorld))
  /\ countRows (sameKey (detailRow (UTCDate 2020 4 1) "US" r1))
       (dailyReport (db (insertBatches (dataToInsert result) Sample.freshWorld))) <= 1.
Proof.
  cbv zeta.
  destruct (aggregation_counts_duplicates (UTCDate 2020 4 1) [] [] [] []
              (Sample.county "Abbeville" "South Carolina" "US" "4")
              (Sample.county "Abbeville" "South Carolina" "US" "6")
              "US" Sample.freshWorld eq_refl eq_refl eq_refl)
    as (Hdaily & Hentry & _ & _ & Hcount & _).
  do 3 (split; [reflexivity|]).
  split; [exact Hdaily|]. split; [exact Hentry|].
  split; [constructor|].
  apply Hcount; [discriminate | discriminate | constructor].
Defined.

(** C3, as the claim states it.  Two records of France without province or
    sub-region in one file give two detail rows with the same country,
    province, sub-region and report date, and both stay in the table: the
    unique index tells rows with an absent province or sub-region apart. *)
Lemma null_keyed_duplicates_both_persist :
  exists d1 d2,
    dailyReport (db (snd (main Sample.franceTwice Sample.freshWorld))) = [d1; d2]
    /\ (DailyReport.countryRegion d1, DailyReport.provinceState d1, DailyReport.admin2 d1,
        DailyReport.reportDate d1) = ("France", None, None, UTCDate 2020 3 1)
    /\ sameKey d1 d2 = true
    /\ countRows (sameKey d1)
         (dailyReport (db (snd (main Sample.franceTwice Sample.freshWorld)))) = 2
    /\ map (fun g => (GlobalStats.totalConfirmed g, GlobalStats.totalDeaths g))
         (dailyGlobalStats (db (snd (main Sample.franceTwice Sample.freshWorld))))
       = [(130, 13)]%Z.
Proof.
  do 2 eexists. split; [vm_compute; reflexivity|]. repeat split.
Qed.

Lemma country_rates_are_means_of_positive_samples_witness :
  dirExists Sample.twoRecords = true
  /\ In Sample.usRow (countryStats (db (snd (main Sample.twoRecords Sample.freshWorld))))
  /\ positiveSamples incidentRateOf (recordsOf Sample.twoRecords "US" (UTCDate 2020 3 1))
     = [Num.parseFloat "1.5"; Num.parseFloat "2.5"]
  /\ CountryStats.incidentRate Sample.usRow
     = mean (positiveSamples incidentRateOf (recordsOf Sample.twoRecords "US" (UTCDate 2020 3 1)))
  /\ CountryStats.caseFatalityRatio Sample.usRow
     = mean (positiveSamples fatalityRatioOf (recordsOf Sample.twoRecords "US" (UTCDate 2020 3 1))).
Proof.
  assert (Hin : In Sample.usRow
                  (countryStats (db (snd (main Sample.twoRecords Sample.freshWorld)))))
    by (left; reflexivity).
  destruct (country_rates_are_means_of_positive_samples Sample.twoRecords Sample.freshWorld
              Sample.usRow eq_refl Hin) as (Hrate & Hratio & _).
  split; [reflexivity|]. split; [exact Hin|]. split; [reflexivity|].
  split; [exact Hrate | exact Hratio].
Defined.

(** ** The global statistics *)

(** X17.  The run does not depend on the order in which the directory lists
    its entries. *)
Lemma run_ignores_listing_order (fs fs' : FileSystem) (w : World) :
  dirExists fs = dirExists fs' ->
  Permutation (readdir fs) (readdir fs') ->
  (forall file, readCSVFile fs file = readCSVFile fs' file) ->
  main fs w = main fs' w.
Proof.
  intros Hdir Hperm Hread. unfold main, importDailyReports.
  rewrite Hdir, (SortFacts.listCsvFiles_of_permutation _ _ Hperm).
  destruct (dirExists fs'); cbn [negb]; [|reflexivity]. cbv zeta.
  assert (Hfile : forall st file, processFile fs st file = processFile fs' st file).
  { intros st file. unfold processFile. now rewrite Hread. }
  assert (Hfiles : forall files w0, processFiles fs files w0 = processFiles fs' files w0).
  { intros files w0. unfold processFiles.
    generalize {| world := w0; totalRecords := 0; globalStatsByDate := [];
                  countryStatsByDate := [] |} as st.
    induction files as [|f files IH]; intros st; cbn [fold_left]; [reflexivity|].
    now rewrite Hfile, IH. }
  now rewrite Hfiles.
Qed.

(** C2.  A report and a copy of it, [03-01-2020.csv] and
    [copy-03-01-2020.csv], resolve to the same report date.  The global row
    of that date holds the counts of the file processed last alone (500
    confirmed), not the sum over both files (1500), whereas the row of the
    country, accumulated under the same date, and the detail rows hold
    both. *)
Theorem global_stats_keep_last_file_of_a_date :
  let files := listCsvFiles (readdir Sample.withCopy) in
  let tables := db (snd (main Sample.withCopy Sample.freshWorld)) in
  files = ["03-01-2020.csv"; "copy-03-01-2020.csv"]
  /\ map parseDate files = [Some (UTCDate 2020 3 1); Some (UTCDate 2020 3 1)]
  /\ dailyGlobalStats tables =
       [{| GlobalStats.date := UTCDate 2020 3 1;
           GlobalStats.totalConfirmed := 500;
           GlobalStats.totalDeaths := 5;
           GlobalStats.totalRecovered := 0;
           GlobalStats.totalActive := 495 |}]
  /\ map (fun d => (DailyReport.reportDate d, DailyReport.confirmed d, DailyReport.deaths d,
                    DailyReport.recovered d, DailyReport.active d))
         (dailyReport tables)
     = [(UTCDate 2020 3 1, 1000, 10, 0, 990); (UTCDate 2020 3 1, 500, 5, 0, 495)]%Z
  /\ map (fun c => (CountryStats.countryRegion c, CountryStats.date c,
                    CountryStats.totalConfirmed c, CountryStats.totalDeaths c,
                    CountryStats.totalRecovered c, CountryStats.totalActive c))
         (countryStats tables)
     = [("US", UTCDate 2020 3 1, 1500, 15, 0, 1485)]%Z.
Proof.
  cbv zeta. repeat split; vm_compute; reflexivity.
Qed.

Lemma processFile_global (fs : FileSystem) (st : RunState) (file : string) (dateKey : string) :
  JsMap.get dateKey (globalStatsByDate (processFile fs st file)) =
  match fileRecords fs file with
  | Some (k, reportDate, rows) =>
      if String.eqb k dateKey then Some (globalEntry reportDate rows)
      else JsMap.get dateKey (globalStatsByDate st)
  | None => JsMap.get dateKey (globalStatsByDate st)
  end.
Proof.
  destruct (fileRecords fs file) as [[[k reportDate] rows]|] eqn:E.
  - unfold fileRecords in E. unfold processFile.
    destruct (parseDate file) as [d|]; [|discriminate].
    destruct (JsDate.isoDay d) as [k'|]; [|discriminate].
    destruct (readCSVFile fs file) as [rows'|]; [|discriminate].
    injection E as -> -> ->.
    cbn [globalStatsByDate withWorld].
    destruct (String.eqb_spec k dateKey) as [<-|Hne].
    + rewrite JsMapFacts.get_set_same. f_equal. unfold globalEntry.
      rewrite <- processRows_daily with (reportDate := reportDate)
        (m := match JsMap.get k
                      (if JsMap.has k (countryStatsByDate st)
                       then countryStatsByDate st
                       else JsMap.set k [] (countryStatsByDate st))
              with Some m => m | None => [] end).
      reflexivity.
    + now rewrite JsMapFacts.get_set_other.
  - now destruct (processFile_skipped fs st file E) as (-> & _).
Qed.

Lemma fold_processFile_global (fs : FileSystem) (files : list string) (st : RunState)
    (dateKey : string) :
  JsMap.get dateKey (globalStatsByDate (fold_left (processFile fs) files st)) =
  match lastFileAt fs files dateKey with
  | Some (reportDate, rows) => Some (globalEntry reportDate rows)
  | None => JsMap.get dateKey (globalStatsByDate st)
  end.
Proof.
  revert st. induction files as [|f files IH]; intros st; cbn [fold_left lastFileAt];
    [reflexivity|].
  rewrite IH. destruct (lastFileAt fs files dateKey) as [[d rows]|]; [reflexivity|].
  rewrite processFile_global.
  destruct (fileRecords fs f) as [[[k d] rows]|]; [|reflexivity].
  now destruct (String.eqb k dateKey).
Qed.

(** X18.  What the code does for the global statistics: the row of a date
    holds the totals of the counted records of the last file of that date. *)
Lemma global_row_is_total_of_last_file (fs : FileSystem) (w : World) (g : GlobalStats.t) :
  dirExists fs = true ->
  In g (dailyGlobalStats (db (snd (main fs w)))) ->
  exists dateKey rows,
    JsDate.isoDay (GlobalStats.date g) = Some dateKey
    /\ lastFileAt fs (listCsvFiles (readdir fs)) dateKey = Some (GlobalStats.date g, rows)
    /\ g = globalEntry (GlobalStats.date g) rows.
Proof.
  intros Hdir Hin.
  rewrite (proj2 (main_unfold fs w)) in Hin.
  destruct (importDailyReports_resolves fs w Hdir) as (_ & _ & Hrows & _).
  rewrite Hrows in Hin. clear Hrows.
  set (files := listCsvFiles (readdir fs)) in *.
  set (w0 := wipe _) in Hin.
  pose proof (processFiles_invariant fs files w0 eq_refl eq_refl) as Hinv.
  unfold JsMap.values in Hin. apply in_map_iff in Hin. destruct Hin as ([k g'] & Hg & Hin).
  cbn in Hg. subst g'.
  destruct (inv_global_date _ Hinv k g Hin) as (_ & Hk).
  pose proof (JsMapFacts.In_get k g _ (inv_global_keys _ Hinv) Hin) as Hget.
  unfold processFiles in Hget. rewrite fold_processFile_global in Hget.
  destruct (lastFileAt fs files k) as [[d rows]|] eqn:Elast; [|discriminate].
  injection Hget as <-.
  exists k, rows. unfold globalEntry in *.
  destruct (totalOf (filter counted rows)) as [[[c dd] r] x]. cbn in *. now repeat split.
Qed.

(** ** The batches *)

(** The batches are the detail rows of the file, all of them and in order:
    the loop over [j] ends before the fuel of the model does. *)
Lemma batches_concat (data : list DailyReport.t) : List.concat (batches data) = data.
Proof.
  unfold batches, batchSize.
  assert (H : forall fuel n l, List.length l <= fuel ->
                List.concat (batchesFrom fuel (S n) l) = l).
  { induction fuel as [|fuel IH]; intros n l Hlen.
    - destruct l; [reflexivity | simpl in Hlen; lia].
    - destruct l as [|x l]; [reflexivity|].
      cbn [batchesFrom List.concat]. rewrite IH.
      + apply firstn_skipn.
      + cbn [skipn]. rewrite length_skipn. simpl in Hlen. lia. }
  now apply H.
Qed.


(** ** The country table, continued *)

(** X19.  The four totals of a row of the country table are the sums over
    the records of its country and report date. *)
Lemma country_totals_are_sums (fs : FileSystem) (w : World) (row : CountryStats.t) :
  dirExists fs = true ->
  In row (countryStats (db (snd (main fs w)))) ->
  let records := recordsOf fs (CountryStats.countryRegion row) (CountryStats.date row) in
  CountryStats.totalConfirmed row = sumOf confirmedOf records
  /\ CountryStats.totalDeaths row = sumOf deathsOf records
  /\ CountryStats.totalRecovered row = sumOf recoveredOf records
  /\ CountryStats.totalActive row = sumOf activeOf records.
Proof.
  intros Hdir Hin records.
  destruct (country_row_of_records fs w row Hdir Hin) as (acc & Hrow & Hacc).
  fold records in Hacc.
  destruct (fold_addToCountry records CountryAcc.empty) as (H1 & H2 & H3 & H4 & _).
  cbv zeta in H1, H2, H3, H4. rewrite <- Hacc in H1, H2, H3, H4. cbn in H1, H2, H3, H4.
  rewrite Hrow. cbn. now repeat split.
Qed.

(** Coordinates given as 0 and coordinates not given are stored alike. *)
Lemma zero_coordinates_indistinguishable :
  let given :=
    {| FIPS := None; Admin2 := None; Province_State := None; Province'State := None;
       Country_Region := Some "Null Island"; Country'Region := None;
       Last_Update := None; Last'Update := None;
       Lat := Some "0"; Latitude := None; Long_ := Some "0"; Longitude := None;
       Confirmed := None; Deaths := None; Recovered := None; Active := None;
       Combined_Key := None; Incident_Rate := None; Incidence_Rate := None;
       Case'Fatality_Ratio := None; Case_Fatality_Ratio := None |} in
  let missing :=
    {| FIPS := None; Admin2 := None; Province_State := None; Province'State := None;
       Country_Region := Some "Null Island"; Country'Region := None;
       Last_Update := None; Last'Update := None;
       Lat := None; Latitude := None; Long_ := Some "unknown"; Longitude := None;
       Confirmed := None; Deaths := None; Recovered := None; Active := None;
       Combined_Key := None; Incident_Rate := None; Incidence_Rate := None;
       Case'Fatality_Ratio := None; Case_Fatality_Ratio := None |} in
  detailsOf (UTCDate 2020 3 1) [given] = detailsOf (UTCDate 2020 3 1) [missing].
Proof. reflexivity. Qed.








(** * Further properties of the import *)

(** ** The statements sent to the database *)









(** ** The tables after a run *)





(** ** Records without a country *)

Lemma processRow_uncounted (reportDate : Date) (st : FileState) (row : DailyReportRow) :
  counted row = false -> processRow reportDate st row = st.
Proof.
  unfold counted, processRow. now destruct (countryOf row).
Qed.

(** X3.  Records without a usable country or region leave no trace: a file
    gives the same running totals, the same per-country map and the same
    detail rows as the file without those records. *)
Theorem uncounted_records_leave_no_trace (reportDate : Date) (m : JsMap.t CountryAcc.t)
    (rows : list DailyReportRow) :
  processRows reportDate m rows = processRows reportDate m (filter counted rows).
Proof.
  unfold processRows.
  generalize {| daily := dailyZero; countryStatsMap := m; dataToInsert := [] |} as st.
  induction rows as [|row rows IH]; intros st; cbn [fold_left filter]; [reflexivity|].
  destruct (counted row) eqn:E; cbn [fold_left].
  - apply IH.
  - rewrite (processRow_uncounted _ _ _ E). apply IH.
Qed.

(** ** Dates, day keys and file names *)

(** X4.  The name [MM-DD-YYYY.csv] of a calendar day resolves to exactly
    that year, month and day, and its day key is [YYYY-MM-DD]. *)
Theorem report_name_resolves_to_its_date (y m d : nat) :
  JsDate.wellFormed (UTCDate y m d) ->
  parseDate (reportFileName y m d) = Some (UTCDate y m d)
  /\ JsDate.isoDay (UTCDate y m d)
     = Some (Str.pad4 y ++ "-" ++ Str.pad2 m ++ "-" ++ Str.pad2 d)%string.
Proof.
  intros Hwf. split; [|reflexivity].
  pose proof Hwf as (Hy & Hm & Hd).
  pose proof (JsDateFacts.daysInMonth_bounds y m) as Hb.
  pose proof (fun n => Nat.mod_upper_bound n 10 ltac:(lia)) as Hlt.
  unfold parseDate, reportFileName, Str.pad4, Str.pad2.
  cbn [String.append matchDate matchDateHere].
  change (Ascii.eqb "-" "-") with true. cbn [andb forallb].
  repeat match goal with
         | |- context [Str.isDigit (Str.digitChar ?n)] =>
             rewrite (proj1 (JsDateFacts.digit_roundtrip n (Hlt _)))
         end.
  cbn [andb]. change (String.prefix ".csv" ".csv") with true. cbv iota.
  apply f_equal.
  apply (JsDateFacts.parse_isoDay (UTCDate y m d)); [exact Hwf | reflexivity].
Qed.

Lemma report_name_resolves_to_its_date_witness :
  JsDate.wellFormed (UTCDate 2020 2 29)
  /\ reportFileName 2020 2 29 = "02-29-2020.csv"
  /\ parseDate "02-29-2020.csv" = Some (UTCDate 2020 2 29).
Proof.
  assert (Hwf : JsDate.wellFormed (UTCDate 2020 2 29)) by (cbn; lia).
  split; [exact Hwf|]. split; [reflexivity|].
  exact (proj1 (report_name_resolves_to_its_date 2020 2 29 Hwf)).
Defined.

(** X5.  The day key of a file that is processed reads back, through
    [new Date(dateKey)], as the report date of the file: the rows of the
    country table carry the date of the detail rows and of the global row,
    and two files under one day key have one report date. *)
Theorem day_key_reads_back_as_report_date (fs : FileSystem) (file file' : string)
    (k : string) (d d' : Date) (rows rows' : list DailyReportRow) :
  fileRecords fs file = Some (k, d, rows) ->
  fileRecords fs file' = Some (k, d', rows') ->
  JsDate.parse k = d /\ d' = d.
Proof.
  intros H H'.
  destruct (fileRecords_key _ _ _ _ _ H) as (Hwf & Hk).
  destruct (fileRecords_key _ _ _ _ _ H') as (Hwf' & Hk').
  split.
  - now apply JsDateFacts.parse_isoDay.
  - now apply (JsDateFacts.isoDay_inj d' d k).
Qed.

Lemma day_key_reads_back_as_report_date_witness :
  fileRecords Sample.withCopy "03-01-2020.csv"
    = Some ("2020-03-01", UTCDate 2020 3 1, [Sample.line "US" "1000" "10" "1.5"])
  /\ fileRecords Sample.withCopy "copy-03-01-2020.csv"
    = Some ("2020-03-01", UTCDate 2020 3 1, [Sample.line "US" "500" "5" "2.5"])
  /\ JsDate.parse "2020-03-01" = UTCDate 2020 3 1.
Proof.
  split; [reflexivity|]. split; [reflexivity|].
  exact (proj1 (day_key_reads_back_as_report_date Sample.withCopy
                  "03-01-2020.csv" "copy-03-01-2020.csv" "2020-03-01"
                  (UTCDate 2020 3 1) (UTCDate 2020 3 1) _ _ eq_refl eq_refl)).
Defined.

(** ** Files that cannot be processed *)







(** ** The batches, continued *)

Lemma batchesFrom_shape (fuel : nat) :
  forall l : list DailyReport.t,
    List.length l <= fuel ->
    Forall (fun b => 1 <= List.length b <= batchSize) (batchesFrom fuel batchSize l)
    /\ List.length l <= batchSize * List.length (batchesFrom fuel batchSize l)
    /\ batchSize * List.length (batchesFrom fuel batchSize l) < List.length l + batchSize.
Proof.
  unfold batchSize. induction fuel as [|fuel IH]; intros l Hlen.
  - destruct l; [|simpl in Hlen; lia]. cbn. repeat split; [constructor | lia | lia].
  - destruct l as [|x l]; [cbn; repeat split; [constructor | lia | lia]|].
    cbn [batchesFrom]. set (data := x :: l) in *.
    assert (Hdata : 1 <= List.length data) by (unfold data; simpl; lia).
    destruct (IH (skipn 500 data)) as (Hall & Hlow & Hhigh).
    { rewrite length_skipn. simpl in Hlen. unfold data in *. simpl. lia. }
    rewrite length_skipn in Hlow, Hhigh.
    split; [|cbn [List.length]; lia].
    constructor; [|assumption].
    rewrite length_firstn. lia.
Qed.

(** X7.  The detail rows of a file are cut into consecutive batches that
    together are exactly the rows, in order; every batch holds between 1
    and 500 rows, and there are no more batches than needed (none for a
    file without rows). *)
Theorem batches_partition_the_rows (data : list DailyReport.t) :
  List.concat (batches data) = data
  /\ Forall (fun b => 1 <= List.length b <= 500) (batches data)
  /\ List.length data <= 500 * List.length (batches data)
  /\ 500 * List.length (batches data) < List.length data + 500.
Proof.
  split; [apply batches_concat|].
  exact (batchesFrom_shape (List.length data) data (le_n _)).
Qed.


(** ** The summary *)





(** ** What a detail row can hold *)

Lemma parseNumber_not_nan (value : option string) (defaultValue : Num.float) :
  Num.isNaN defaultValue = false -> Num.isNaN (parseNumber value defaultValue) = false.
Proof.
  intros H. unfold parseNumber. destruct value as [[|c s]|]; try assumption.
  destruct (Num.isNaN (Num.parseFloat (String c s))) eqn:E; assumption.
Qed.

(** X9.  No detail row carries a NaN: the coordinates are numbers (0 when
    the column gives none), and an incidence rate or case-fatality ratio
    that is stored is strictly positive, so that a zero, a negative value
    or a non-numeric text is stored as absent. *)
Theorem detail_rows_hold_no_nan (reportDate : Date) (st : FileState)
    (row : DailyReportRow) (detail : DailyReport.t) :
  emits reportDate st row detail ->
  Num.isNaN (DailyReport.latitude detail) = false
  /\ Num.isNaN (DailyReport.longitude detail) = false
  /\ (forall x, DailyReport.incidentRate detail = Some x ->
                Num.gt0 x = true /\ Num.isNaN x = false)
  /\ (forall x, DailyReport.caseFatalityRatio detail = Some x ->
                Num.gt0 x = true /\ Num.isNaN x = false).
Proof.
  intros H. emitted H.
  assert (Hpos : forall v x, positiveOrNull v = Some x -> Num.gt0 x = true /\ Num.isNaN x = false).
  { intros v x. unfold positiveOrNull. destruct (Num.gt0 v) eqn:E; [|discriminate].
    intros [= <-]. split; [assumption|]. now destruct v. }
  repeat split; try (apply parseNumber_not_nan; reflexivity); eapply Hpos; eassumption.
Qed.

Lemma detail_rows_hold_no_nan_witness :
  exists detail,
    emits (UTCDate 2020 3 1) Sample.emptyFileState (Sample.line "US" "1000" "10" "1.5") detail
    /\ DailyReport.incidentRate detail = Some (Num.parseFloat "1.5")
    /\ Num.gt0 (Num.parseFloat "1.5") = true
    /\ Num.isNaN (DailyReport.latitude detail) = false.
Proof.
  eexists. split; [reflexivity|]. split; [reflexivity|].
  destruct (detail_rows_hold_no_nan (UTCDate 2020 3 1) Sample.emptyFileState
              (Sample.line "US" "1000" "10" "1.5") _ eq_refl) as (Hlat & _ & Hrate & _).
  split; [exact (proj1 (Hrate _ eq_refl)) | exact Hlat].
Defined.

(** ** The global table, continued *)





(** ** Witnesses of the properties above *)

Lemma run_ignores_listing_order_witness :
  dirExists relisted = dirExists relistedAgain
  /\ Permutation (readdir relisted) (readdir relistedAgain)
  /\ (forall file, readCSVFile relisted file = readCSVFile relistedAgain file)
  /\ main relisted Sample.freshWorld = main relistedAgain Sample.freshWorld.
Proof.
  assert (Hperm : Permutation (readdir relisted) (readdir relistedAgain)).
  { cbn. apply perm_trans with ["03-02-2020.csv"; "03-01-2020.csv"; "notes.txt"].
    - apply perm_skip, perm_swap.
    - apply perm_swap. }
  split; [reflexivity|]. split; [exact Hperm|]. split; [reflexivity|].
  exact (run_ignores_listing_order relisted relistedAgain Sample.freshWorld
           eq_refl Hperm (fun file => eq_refl)).
Defined.

Lemma global_row_is_total_of_last_file_witness :
  dirExists Sample.withCopy = true
  /\ In copyGlobalRow (dailyGlobalStats (db (snd (main Sample.withCopy Sample.freshWorld))))
  /\ exists dateKey rows,
       JsDate.isoDay (GlobalStats.date copyGlobalRow) = Some dateKey
       /\ lastFileAt Sample.withCopy (listCsvFiles (readdir Sample.withCopy)) dateKey
          = Some (GlobalStats.date copyGlobalRow, rows)
       /\ copyGlobalRow = globalEntry (GlobalStats.date copyGlobalRow) rows.
Proof.
  assert (Hin : In copyGlobalRow
                  (dailyGlobalStats (db (snd (main Sample.withCopy Sample.freshWorld)))))
    by (left; reflexivity).
  split; [reflexivity|]. split; [exact Hin|].
  exact (global_row_is_total_of_last_file Sample.withCopy Sample.freshWorld copyGlobalRow
           eq_refl Hin).
Defined.

Lemma country_totals_are_sums_witness :
  dirExists Sample.twoRecords = true
  /\ In Sample.usRow (countryStats (db (snd (main Sample.twoRecords Sample.freshWorld))))
  /\ sumOf confirmedOf (recordsOf Sample.twoRecords "US" (UTCDate 2020 3 1)) = 1500%Z
  /\ sumOf activeOf (recordsOf Sample.twoRecords "US" (UTCDate 2020 3 1)) = 1485%Z
  /\ CountryStats.totalConfirmed Sample.usRow
     = sumOf confirmedOf (recordsOf Sample.twoRecords "US" (UTCDate 2020 3 1))
  /\ CountryStats.totalActive Sample.usRow
     = sumOf activeOf (recordsOf Sample.twoRecords "US" (UTCDate 2020 3 1)).
Proof.
  assert (Hin : In Sample.usRow
                  (countryStats (db (snd (main Sample.twoRecords Sample.freshWorld)))))
    by (left; reflexivity).
  destruct (country_totals_are_sums Sample.twoRecords Sample.freshWorld Sample.usRow
              eq_refl Hin) as (Hc & _ & _ & Ha).
  split; [reflexivity|]. split; [exact Hin|]. do 2 (split; [reflexivity|]).
  split; [exact Hc | exact Ha].
Defined.


(** ** The detail table *)









(** ** The country table against the records of a date *)


















(** ** The timeline of a country *)

Lemma runningSums_daily (populationByYear : YearMap.t Num.float) (arr : list Stat.t)
    (prev : option Z) (total : Z) :
  match prev with Some before => before = total | None => total = 0%Z end ->
  Forall (fun stat => Stat.newDeaths stat = None) arr ->
  runningSums total (map Point.deaths (mapTimeline "daily" populationByYear prev arr)) =
  map Stat.totalDeaths arr.
Proof.
  revert prev total. induction arr as [|stat arr IH]; intros prev total Hprev Hnone;
    [reflexivity|].
  inversion Hnone as [|? ? Hstat Hrest]; subst.
  cbn [mapTimeline map runningSums timelinePoint Point.deaths String.eqb Ascii.eqb
       Bool.eqb].
  cbn [String.eqb]. unfold dailyDeathsOf. rewrite Hstat.
  assert (Hsum : (total + match prev with
                           | Some before => Stat.totalDeaths stat - before
                           | None => Stat.totalDeaths stat
                           end)%Z = Stat.totalDeaths stat).
  { destruct prev; lia. }
  rewrite Hsum. f_equal. apply IH; [reflexivity | assumption].
Qed.

Lemma deaths_cumulative (deathsMode : string) (populationByYear : YearMap.t Num.float)
    (arr : list Stat.t) (prev : option Z) :
  String.eqb deathsMode "daily" = false ->
  map Point.deaths (mapTimeline deathsMode populationByYear prev arr) =
  map Stat.totalDeaths arr.
Proof.
  intros Hmode. revert prev. induction arr as [|stat arr IH]; intros prev; [reflexivity|].
  cbn [mapTimeline map timelinePoint Point.deaths]. rewrite Hmode. f_equal. apply IH.
Qed.

Lemma newDeaths_any_mode (deathsMode : string) (populationByYear : YearMap.t Num.float)
    (arr : list Stat.t) (prev : option Z) :
  map Point.newDeaths (mapTimeline deathsMode populationByYear prev arr) =
  map Point.deaths (mapTimeline "daily" populationByYear prev arr).
Proof.
  revert prev. induction arr as [|stat arr IH]; intros prev; [reflexivity|].
  cbn [mapTimeline map timelinePoint Point.deaths Point.newDeaths]. rewrite IH. f_equal.
  unfold dailyDeathsOf. now destruct (Stat.newDeaths stat).
Qed.

(** X14.  In the timeline of a country whose rows store no daily deaths
    (as the rows the import writes), the daily mode and the cumulative mode
    show the same series: the running sums of the deaths shown in daily
    mode are the deaths shown in any other mode, which are the stored
    totals from the earliest row to the latest; and the [newDeaths] of the
    points are, in every mode, the deaths of the daily mode. *)
Theorem daily_deaths_add_back_to_the_totals (deathsModeParam : option string)
    (countryTimeline : list Stat.t) (populations : list Population.t) :
  Forall (fun stat => Stat.newDeaths stat = None) countryTimeline ->
  String.eqb (deathsModeOf deathsModeParam) "daily" = false ->
  let daily := countryTimelinePoints (Some "daily") countryTimeline populations in
  let other := countryTimelinePoints deathsModeParam countryTimeline populations in
  runningSums 0 (map Point.deaths daily) = map Point.deaths other
  /\ map Point.deaths other = rev (map Stat.totalDeaths countryTimeline)
  /\ map Point.newDeaths other = map Point.deaths daily.
Proof.
  intros Hnone Hmode daily other. unfold daily, other, countryTimelinePoints.
  rewrite (deaths_cumulative _ _ _ _ Hmode), map_rev.
  change (deathsModeOf (Some "daily")) with "daily".
  split; [|split].
  - rewrite <- map_rev. apply runningSums_daily; [reflexivity|].
    apply Forall_rev, Hnone.
  - reflexivity.
  - apply newDeaths_any_mode.
Qed.

Lemma daily_deaths_add_back_to_the_totals_witness :
  Forall (fun stat => Stat.newDeaths stat = None) threeDays
  /\ map Point.deaths (countryTimelinePoints (Some "daily") threeDays []) = [2; 1; 1]%Z
  /\ map Point.deaths (countryTimelinePoints None threeDays []) = [2; 3; 4]%Z
  /\ runningSums 0 (map Point.deaths (countryTimelinePoints (Some "daily") threeDays []))
     = map Point.deaths (countryTimelinePoints None threeDays []).
Proof.
  assert (Hnone : Forall (fun stat => Stat.newDeaths stat = None) threeDays).
  { repeat constructor. }
  split; [exact Hnone|]. split; [reflexivity|]. split; [reflexivity|].
  exact (proj1 (daily_deaths_add_back_to_the_totals None threeDays [] Hnone eq_refl)).
Defined.

(** ** The bounds of the timeline *)

(** X15.  When both bounds of the timeline are given and parse, their
    order does not matter: the filter is the same either way, and a time
    passes it exactly when it lies between the earlier and the later
    bound. *)
Theorem date_bounds_come_in_either_order (timeOf : string -> option Z)
    (startDateParam endDateParam : option string) (s e : Z) :
  parseBound timeOf startDateParam = Some s ->
  parseBound timeOf endDateParam = Some e ->
  dateFilter timeOf startDateParam endDateParam
  = dateFilter timeOf endDateParam startDateParam
  /\ forall time,
       passes (dateFilter timeOf startDateParam endDateParam) time
       = ((Z.min s e <=? time)%Z && (time <=? Z.max s e)%Z).
Proof.
  intros Hs He. unfold dateFilter, dateRange. rewrite Hs, He.
  destruct (Z.ltb_spec e s) as [Hlt|Hge], (Z.ltb_spec s e) as [Hlt'|Hge']; try lia.
  - split; [reflexivity|]. intros time. cbn [passes].
    now rewrite (Z.min_r s e), (Z.max_l s e) by lia.
  - split; [reflexivity|]. intros time. cbn [passes].
    now rewrite (Z.min_l s e), (Z.max_r s e) by lia.
  - assert (s = e) by lia. subst e. split; [reflexivity|]. intros time. cbn [passes].
    now rewrite Z.min_id, Z.max_id.
Qed.

Lemma date_bounds_come_in_either_order_witness :
  parseBound januaryTime (Some "2020-01-20") = Some 1641600000%Z
  /\ parseBound januaryTime (Some "2020-01-05") = Some 345600000%Z
  /\ dateFilter januaryTime (Some "2020-01-20") (Some "2020-01-05")
     = Some (Some 345600000%Z, Some 1641600000%Z)
  /\ dateFilter januaryTime (Some "2020-01-20") (Some "2020-01-05")
     = dateFilter januaryTime (Some "2020-01-05") (Some "2020-01-20").
Proof.
  split; [reflexivity|]. split; [reflexivity|]. split; [reflexivity|].
  exact (proj1 (date_bounds_come_in_either_order januaryTime
                  (Some "2020-01-20") (Some "2020-01-05") 1641600000%Z 345600000%Z
                  eq_refl eq_refl)).
Defined.

(** ** The recovery fallback of the statistics route *)

Lemma recoveryStep_get (country : string) (m : JsMap.t Z) (entry : Candidate.t) :
  JsMap.get country (recoveryStep m entry) =
  if String.eqb (Candidate.countryRegion entry) country
  then settleStep (JsMap.get country m) (Candidate.totalRecovered entry)
  else JsMap.get country m.
Proof.
  unfold recoveryStep, settleStep.
  destruct (String.eqb_spec (Candidate.countryRegion entry) country) as [->|Hne].
  - destruct (JsMap.get country m) as [current|] eqn:G.
    + destruct ((current =? 0)%Z && (0 <? Candidate.totalRecovered entry)%Z).
      * now rewrite JsMapFacts.get_set_same.
      * exact G.
    + now rewrite JsMapFacts.get_set_same.
  - destruct (JsMap.get (Candidate.countryRegion entry) m) as [current|].
    + destruct ((current =? 0)%Z && (0 <? Candidate.totalRecovered entry)%Z);
        [now rewrite JsMapFacts.get_set_other | reflexivity].
    + now rewrite JsMapFacts.get_set_other.
Qed.

Lemma recoveryMap_per_country (country : string) (candidates : list Candidate.t)
    (m : JsMap.t Z) :
  JsMap.get country (fold_left recoveryStep candidates m) =
  fold_left settleStep (recoveredOfCountry country candidates) (JsMap.get country m).
Proof.
  revert m. induction candidates as [|entry candidates IH]; intros m; [reflexivity|].
  cbn [fold_left]. rewrite IH, recoveryStep_get. unfold recoveredOfCountry.
  cbn [filter]. now destruct (String.eqb (Candidate.countryRegion entry) country).
Qed.

Lemma settleStep_from (value : Z) (later : list Z) :
  fold_left settleStep later (Some value) =
  if (value =? 0)%Z then Some (hd 0%Z (filter (fun v => (0 <? v)%Z) later))
  else Some value.
Proof.
  revert value. induction later as [|v later IH]; intros value; cbn [fold_left filter hd].
  - destruct (Z.eqb_spec value 0); congruence.
  - cbn [settleStep]. destruct (Z.eqb_spec value 0) as [->|Hne]; cbn [andb].
    + destruct (Z.ltb_spec 0 v) as [Hpos|Hle].
      * rewrite IH. destruct (Z.eqb_spec v 0); [lia | reflexivity].
      * rewrite IH. reflexivity.
    + rewrite IH. destruct (Z.eqb_spec value 0); [contradiction | reflexivity].
Qed.

(** The entry of a country depends on the candidates of that country
    only. *)
Lemma recoveryMap_settled (country : string) (candidates : list Candidate.t) :
  JsMap.get country (recoveryMapOf candidates) =
  settled (recoveredOfCountry country candidates).
Proof.
  unfold recoveryMapOf. rewrite recoveryMap_per_country. cbn [JsMap.get].
  destruct (recoveredOfCountry country candidates) as [|first later]; [reflexivity|].
  cbn [fold_left settleStep settled]. apply settleStep_from.
Qed.

(** X16.  The country totals the statistics route returns are the rows of
    its query with the recovered count alone replaced.  The count shown for
    a country depends on the candidates of that country only: it is the
    count of its first candidate or, when that is [0], the first count
    above [0] among its later candidates ([0] when there is none); a first
    count below [0] is kept, and a country without candidate keeps the
    count of its row.  The top countries are the first ten of these rows. *)
Theorem shown_recovered_is_the_fallback (countryTotals : list Stat.t)
    (candidates : list Candidate.t) :
  let adjusted := adjustedCountryTotals countryTotals (recoveryMapOf candidates) in
  map Stat.totalRecovered adjusted
  = map (fun row =>
           match settled (recoveredOfCountry (Stat.countryRegion row) candidates) with
           | Some recovered => recovered
           | None => Stat.totalRecovered row
           end)
        countryTotals
  /\ map (Stat.withRecovered 0) adjusted = map (Stat.withRecovered 0) countryTotals
  /\ topCountries adjusted
     = adjustedCountryTotals (firstn 10 countryTotals) (recoveryMapOf candidates)
  /\ List.length (topCountries adjusted) = Nat.min 10 (List.length countryTotals).
Proof.
  intros adjusted. unfold adjusted, adjustedCountryTotals, topCountries.
  rewrite !map_map. split; [|split; [|split]].
  - apply map_ext. intros row. rewrite recoveryMap_settled.
    now destruct (settled _).
  - apply map_ext. intros row.
    now destruct (JsMap.get (Stat.countryRegion row) (recoveryMapOf candidates)).
  - apply firstn_map.
  - now rewrite length_firstn, length_map.
Qed.

(** ** The population import *)

Lemma findIndex_split {A : Type} (test : A -> bool) (l : list A) :
  match findIndex test l with
  | Some i =>
      exists before x rest,
        l = before ++ x :: rest /\ List.length before = i
        /\ Forall (fun y => test y = false) before /\ test x = true
        /\ skipn i l = x :: rest
  | None => Forall (fun y => test y = false) l
  end.
Proof.
  induction l as [|x l IH]; cbn [findIndex]; [constructor|].
  destruct (test x) eqn:Ex.
  - exists [], x, l. repeat split; try reflexivity; try assumption. constructor.
  - destruct (findIndex test l) as [i|].
    + destruct IH as (before & y & rest & -> & Hlen & Hall & Hy & Hskip).
      exists (x :: before), y, rest. cbn [app List.length skipn].
      repeat split; try assumption; [now rewrite Hlen | now constructor].
    + now constructor.
Qed.

Lemma prefix_app (p s t : string) :
  String.prefix p s = true -> String.prefix p (s ++ t)%string = true.
Proof.
  revert s. induction p as [|c p IH]; intros s; [intros _; now destruct (s ++ t)%string|].
  destruct s as [|c' s]; cbn [String.prefix append]; [discriminate|].
  destruct (Ascii.ascii_dec c c'); [apply IH | discriminate].
Qed.

Lemma isHeader_joinLines (header : string) (rest : list string) :
  isHeader header = true -> isHeader (joinLines (header :: rest)) = true.
Proof.
  unfold isHeader, joinLines. intros H. apply orb_true_iff in H. apply orb_true_iff.
  destruct rest as [|line rest]; [exact H|]. cbn [String.concat].
  destruct H as [H|H]; [left | right]; now apply prefix_app.
Qed.

(** X21.  The population file is handed to the parser from its header line
    on: the lines before the first line that starts with [Country Name]
    (quoted or not) are dropped, the text parsed starts with that header,
    and a file without such a line is an error. *)
Theorem population_data_starts_at_the_header (papaParse : string -> list Row)
    (text : string) :
  match loadRows papaParse (Some text) with
  | Some rows =>
      exists before header rest,
        splitLines text = before ++ header :: rest
        /\ Forall (fun line => isHeader line = false) before
        /\ isHeader header = true
        /\ isHeader (joinLines (header :: rest)) = true
        /\ rows = papaParse (joinLines (header :: rest))
  | None => Forall (fun line => isHeader line = false) (splitLines text)
  end.
Proof.
  unfold loadRows. cbv zeta.
  pose proof (findIndex_split isHeader (splitLines text)) as H.
  destruct (findIndex isHeader (splitLines text)) as [i|]; [|exact H].
  destruct H as (before & header & rest & Hlines & _ & Hall & Hheader & Hskip).
  exists before, header, rest. rewrite Hskip.
  repeat split; try assumption. now apply isHeader_joinLines.
Qed.

Lemma In_entryOfYear (toNumber : string -> Num.float) (row : Row) (country year : string)
    (entry : CountryPopulation.t) :
  In entry (entryOfYear toNumber row country year) <->
  exists value,
    row year = Some value /\ value <> EmptyString
    /\ isFinite (toNumber value) = true
    /\ entry = {| CountryPopulation.country := country;
                  CountryPopulation.year := numberOfYear year;
                  CountryPopulation.population := truncate (toNumber value) |}.
Proof.
  unfold entryOfYear. split.
  - destruct (row year) as [[|c value]|]; try contradiction.
    destruct (isFinite (toNumber (String c value))) eqn:E; [|contradiction].
    intros [<-|[]]. exists (String c value). repeat split; [discriminate | exact E].
  - intros (value & -> & Hne & Hfin & ->). destruct value as [|c value]; [congruence|].
    rewrite Hfin. now left.
Qed.

Lemma length_entryOfYear (toNumber : string -> Num.float) (row : Row) (country year : string) :
  List.length (entryOfYear toNumber row country year) <= 1.
Proof.
  unfold entryOfYear. destruct (row year) as [[|c value]|]; cbn; try lia.
  destruct (isFinite _); cbn; lia.
Qed.

(** X22.  The entries prepared from the records: a record without country
    name gives none; a record with one gives, for each of the years 2020 to
    2023 in this order, one entry when the column of the year holds a text
    that [Number] reads as a finite number, with that number cut to an
    integer towards zero, and none otherwise.  So there are at most four
    entries for a record, and the year of an entry is one of the four. *)
Theorem population_entries_come_from_the_records (toNumber : string -> Num.float)
    (rows : list Row) (entry : CountryPopulation.t) :
  (In entry (entriesOf toNumber rows) <->
   exists row year value,
     In row rows /\ In year YEARS
     /\ row "Country Name" = Some (CountryPopulation.country entry)
     /\ CountryPopulation.country entry <> EmptyString
     /\ row year = Some value /\ value <> EmptyString
     /\ isFinite (toNumber value) = true
     /\ CountryPopulation.year entry = numberOfYear year
     /\ CountryPopulation.population entry = truncate (toNumber value))
  /\ (In entry (entriesOf toNumber rows) ->
      In (CountryPopulation.year entry) [2020; 2021; 2022; 2023]%Z)
  /\ List.length (entriesOf toNumber rows) <= 4 * List.length rows.
Proof.
  assert (Hchar : In entry (entriesOf toNumber rows) <->
                  exists row year value,
                    In row rows /\ In year YEARS
                    /\ row "Country Name" = Some (CountryPopulation.country entry)
                    /\ CountryPopulation.country entry <> EmptyString
                    /\ row year = Some value /\ value <> EmptyString
                    /\ isFinite (toNumber value) = true
                    /\ CountryPopulation.year entry = numberOfYear year
                    /\ CountryPopulation.population entry = truncate (toNumber value)).
  { unfold entriesOf. rewrite in_flat_map. split.
    - intros (row & Hrow & Hin). unfold entriesOfRow in Hin.
      destruct (row "Country Name") as [[|c country]|] eqn:Ec; try contradiction.
      apply in_flat_map in Hin. destruct Hin as (year & Hyear & Hin).
      apply In_entryOfYear in Hin. destruct Hin as (value & Hv & Hne & Hfin & ->).
      exists row, year, value. cbn. repeat split; try assumption. discriminate.
    - intros (row & year & value & Hrow & Hyear & Hc & Hne & Hv & Hvne & Hfin & Hy & Hp).
      exists row. split; [assumption|]. unfold entriesOfRow. rewrite Hc.
      destruct (CountryPopulation.country entry) as [|c country] eqn:Ec; [congruence|].
      apply in_flat_map. exists year. split; [assumption|].
      apply In_entryOfYear. exists value. repeat split; try assumption.
      destruct entry as [country' year' population']. cbn in *. congruence. }
  split; [exact Hchar|]. split.
  - intros Hin. apply Hchar in Hin.
    destruct Hin as (row & year & value & _ & Hyear & _ & _ & _ & _ & _ & -> & _).
    cbn in Hyear. destruct Hyear as [<-|[<-|[<-|[<-|[]]]]]; vm_compute; tauto.
  - clear Hchar. unfold entriesOf.
    induction rows as [|row rows IH]; cbn [flat_map List.length]; [lia|].
    rewrite length_app.
    assert (Hrow : List.length (entriesOfRow toNumber row) <= 4).
    { unfold entriesOfRow. destruct (row "Country Name") as [[|c country]|]; cbn; try lia.
      rewrite !length_app.
      pose proof (length_entryOfYear toNumber row (String c country) "2020").
      pose proof (length_entryOfYear toNumber row (String c country) "2021").
      pose proof (length_entryOfYear toNumber row (String c country) "2022").
      pose proof (length_entryOfYear toNumber row (String c country) "2023").
      cbn [List.length]. lia. }
    lia.
Qed.

Lemma insertChunks_fitting (fuel total : nat) :
  forall (i : nat) (rest : list CountryPopulation.t) (w : PopulationWorld),
    List.length rest <= fuel ->
    forallb fitsBigInt rest = true ->
    fst (insertChunks fuel total i rest w) = Resolved
    /\ populations (snd (insertChunks fuel total i rest w))
       = createManyPopulation rest (populations w)
    /\ disconnected (snd (insertChunks fuel total i rest w)) = disconnected w.
Proof.
  induction fuel as [|fuel IH]; intros i rest w Hlen Hfit.
  - destruct rest; [now cbn | cbn in Hlen; lia].
  - destruct rest as [|entry rest]; [now cbn|].
    cbn [insertChunks]. set (data := entry :: rest) in *.
    assert (Hparts : data = firstn chunkSize data ++ skipn chunkSize data)
      by (symmetry; apply firstn_skipn).
    assert (Hfit' : forallb fitsBigInt (firstn chunkSize data) = true
                    /\ forallb fitsBigInt (skipn chunkSize data) = true).
    { rewrite Hparts, forallb_app in Hfit. now apply andb_true_iff in Hfit. }
    destruct Hfit' as [Hhead Htail]. rewrite Hhead.
    destruct (IH (i + chunkSize) (skipn chunkSize data)
                 (print (LogInserted (Nat.min (i + chunkSize) total) total)
                    (withPopulations
                       (createManyPopulation (firstn chunkSize data) (populations w)) w)))
      as (Hok & Htable & Hdisc).
    + rewrite length_skipn. unfold data, chunkSize in *. cbn [List.length] in *. lia.
    + exact Htail.
    + split; [exact Hok|]. split; [|exact Hdisc].
      rewrite Htable. cbn [populations print withPopulations].
      rewrite Hparts at 3. unfold createManyPopulation. now rewrite fold_left_app.
Qed.

Lemma find_append {A : Type} (test : A -> bool) (l l' : list A) :
  find test (l ++ l') = match find test l with Some x => Some x | None => find test l' end.
Proof.
  induction l as [|x l IH]; cbn [app find]; [reflexivity|]. now destruct (test x).
Qed.

Lemma firstEntry_insert (country : string) (year : Z) (table : list CountryPopulation.t)
    (entry : CountryPopulation.t) :
  firstEntry country year (insertPopulation table entry) =
  match firstEntry country year table with
  | Some found => Some found
  | None => firstEntry country year [entry]
  end.
Proof.
  unfold insertPopulation. destruct (existsb (populationConflicts entry) table) eqn:E.
  - destruct (firstEntry country year table) as [found|] eqn:F; [reflexivity|].
    unfold firstEntry. cbn [find].
    destruct (String.eqb_spec (CountryPopulation.country entry) country) as [Hc|]; [|reflexivity].
    destruct (Z.eqb_spec (CountryPopulation.year entry) year) as [Hy|]; [|reflexivity].
    exfalso. apply existsb_exists in E. destruct E as (kept & Hin & Hk).
    unfold populationConflicts in Hk. apply andb_true_iff in Hk. destruct Hk as [Hkc Hky].
    apply String.eqb_eq in Hkc. apply Z.eqb_eq in Hky.
    pose proof (find_none _ _ F kept Hin) as Hnone. cbn beta in Hnone.
    rewrite <- Hkc, <- Hky, Hc, Hy, String.eqb_refl, Z.eqb_refl in Hnone. discriminate.
  - unfold firstEntry. now rewrite find_append.
Qed.

Lemma firstEntry_createMany (country : string) (year : Z)
    (chunk table : list CountryPopulation.t) :
  firstEntry country year (createManyPopulation chunk table) =
  match firstEntry country year table with
  | Some found => Some found
  | None => firstEntry country year chunk
  end.
Proof.
  unfold createManyPopulation. revert table.
  induction chunk as [|entry chunk IH]; intros table; cbn [fold_left].
  - now destruct (firstEntry country year table).
  - rewrite IH, firstEntry_insert.
    destruct (firstEntry country year table) as [found|]; [reflexivity|].
    unfold firstEntry. cbn [find].
    now destruct (String.eqb (CountryPopulation.country entry) country
                  && (CountryPopulation.year entry =? year)%Z).
Qed.

Lemma NoDup_insertPopulation (table : list CountryPopulation.t) (entry : CountryPopulation.t) :
  NoDup (map (fun e => (CountryPopulation.country e, CountryPopulation.year e)) table) ->
  NoDup (map (fun e => (CountryPopulation.country e, CountryPopulation.year e))
             (insertPopulation table entry)).
Proof.
  intros Hnd. unfold insertPopulation.
  destruct (existsb (populationConflicts entry) table) eqn:E; [assumption|].
  rewrite map_app. cbn [map].
  apply NoDup_app_remove_l with (l := []). cbn [app].
  apply Permutation_NoDup with
    (l := (CountryPopulation.country entry, CountryPopulation.year entry)
          :: map (fun e => (CountryPopulation.country e, CountryPopulation.year e)) table).
  - apply Permutation_cons_append.
  - constructor; [|assumption]. intros Hin. apply in_map_iff in Hin.
    destruct Hin as (kept & Hkey & Hin). injection Hkey as Hc Hy.
    assert (Hfalse : existsb (populationConflicts entry) table = true).
    { apply existsb_exists. exists kept. split; [assumption|].
      unfold populationConflicts. now rewrite Hc, Hy, String.eqb_refl, Z.eqb_refl. }
    congruence.
Qed.

Lemma NoDup_createManyPopulation (chunk table : list CountryPopulation.t) :
  NoDup (map (fun e => (CountryPopulation.country e, CountryPopulation.year e)) table) ->
  NoDup (map (fun e => (CountryPopulation.country e, CountryPopulation.year e))
             (createManyPopulation chunk table)).
Proof.
  unfold createManyPopulation. revert table.
  induction chunk as [|entry chunk IH]; intros table Hnd; cbn [fold_left]; [assumption|].
  apply IH, NoDup_insertPopulation, Hnd.
Qed.

(** X23.  When the file has a header and every population fits its column,
    the import ends with status 0 and the client disconnected, and the
    table, whatever it held before, has one row for each country and year
    of the entries: the first entry of that country and year, later ones
    being skipped. *)
Theorem population_table_holds_the_first_entries (papaParse : string -> list Row)
    (toNumber : string -> Num.float) (file : option string) (w : PopulationWorld)
    (rows : list Row) :
  loadRows papaParse file = Some rows ->
  forallb fitsBigInt (entriesOf toNumber rows) = true ->
  let result := populationMain papaParse toNumber file w in
  fst result = 0
  /\ disconnected (snd result) = true
  /\ NoDup (map (fun e => (CountryPopulation.country e, CountryPopulation.year e))
                (populations (snd result)))
  /\ forall country year,
       firstEntry country year (populations (snd result))
       = firstEntry country year (entriesOf toNumber rows).
Proof.
  intros Hrows Hfit result. unfold result, populationMain, importPopulation.
  rewrite Hrows. cbv zeta.
  set (entries := entriesOf toNumber rows) in *.
  set (w4 := withPopulations [] _).
  destruct (insertChunks_fitting (List.length entries) (List.length entries) 0 entries w4
              (le_n _) Hfit) as (Hok & Htable & _).
  destruct (insertChunks (List.length entries) (List.length entries) 0 entries w4)
    as [outcome w5].
  cbn [fst snd] in *. subst outcome. cbn [fst snd populations disconnected print].
  rewrite Htable. cbn [populations withPopulations].
  split; [reflexivity|]. split; [reflexivity|]. split.
  - apply NoDup_createManyPopulation. constructor.
  - intros country year. now rewrite firstEntry_createMany.
Qed.

Lemma population_table_holds_the_first_entries_witness :
  loadRows populationRecords (Some populationFile) = Some (populationRecords EmptyString)
  /\ forallb fitsBigInt (entriesOf Num.parseFloat (populationRecords EmptyString)) = true
  /\ populations (snd (populationMain populationRecords Num.parseFloat (Some populationFile)
                         freshPopulationWorld))
     = [ {| CountryPopulation.country := "France"; CountryPopulation.year := 2020;
            CountryPopulation.population := 67571107 |};
         {| CountryPopulation.country := "France"; CountryPopulation.year := 2021;
            CountryPopulation.population := 67764304 |};
         {| CountryPopulation.country := "France"; CountryPopulation.year := 2022;
            CountryPopulation.population := 3 |};
         {| CountryPopulation.country := "France"; CountryPopulation.year := 2023;
            CountryPopulation.population := 4 |} ]
  /\ fst (populationMain populationRecords Num.parseFloat (Some populationFile)
            freshPopulationWorld) = 0.
Proof.
  split; [reflexivity|]. split; [vm_compute; reflexivity|]. split; [vm_compute; reflexivity|].
  exact (proj1 (population_table_holds_the_first_entries populationRecords Num.parseFloat
                  (Some populationFile) freshPopulationWorld (populationRecords EmptyString)
                  eq_refl eq_refl)).
Defined.

(** X24.  When the file cannot be read or has no header line, the import
    ends with status 1 before any statement is sent: the table keeps its
    rows (it is not even cleared), two lines are printed, and the client is
    not disconnected, since the process exits inside the [catch]. *)
Theorem population_import_without_header_fails (papaParse : string -> list Row)
    (toNumber : string -> Num.float) (file : option string) (w : PopulationWorld) :
  loadRows papaParse file = None ->
  let result := populationMain papaParse toNumber file w in
  fst result = 1
  /\ populations (snd result) = populations w
  /\ printed (snd result) = printed w ++ [LogImportPopulation; LogPopulationError]
  /\ disconnected (snd result) = disconnected w.
Proof.
  intros Hrows result. unfold result, populationMain, importPopulation. rewrite Hrows.
  cbn. rewrite <- app_assoc. repeat split.
Qed.

Lemma population_import_without_header_fails_witness :
  loadRows populationRecords (Some "Data Source,World Development Indicators") = None
  /\ fst (populationMain populationRecords Num.parseFloat
            (Some "Data Source,World Development Indicators") freshPopulationWorld) = 1.
Proof.
  split; [reflexivity|].
  exact (proj1 (population_import_without_header_fails populationRecords Num.parseFloat
                  (Some "Data Source,World Development Indicators") freshPopulationWorld
                  eq_refl)).
Defined.
